(** * stock_crypto_prices: the core models and the event bus

    A shallow embedding of [src/core/models.py] and [src/core/events.py].

    - [Py], [PyObjects], [PyData]: the fragment of Python's run-time
      behaviour the two files rely on: exceptions and results, a
      state-and-error monad, name spaces and attribute lookup, the field
      check of [dataclasses.dataclass], the [dict] and [list] operations of
      the bus.
    - [Models]: [AssetType], [Tracker], [PriceSnapshot] and the top level of
      [models.py].
    - [Events]: the six event records and [type(event)].
    - [Bus]: the bodies of [subscribe], [unsubscribe], [publish],
      [instance] and [reset], as they are written in lines 63 to 123.
    - [EventsModule]: the class statement of [EventBus], the frame of
      [__init__] in which those five functions are defined, and the top
      level of [events.py].
    - [Demo]: seven handlers and three events, on which the properties are
      put to work.

    Scope of the model.  Execution is sequential: every [with lock:] block
    finds its lock free and releases it on exit, so a block is modelled by
    its body.  A handler is a callable supplied by the application: any
    terminating state transformer that returns or raises, and that may
    change the bus it is called from.  Formatting and printing the
    diagnostic of [publish] runs [str] of the handler and of the exception
    and the [write] of the standard output: it is like a handler a
    terminating state transformer that returns or raises. *)

From Stdlib Require Import ZArith QArith Qpower String List Lia.
From Stdlib Require Import Floats.SpecFloat.
From Stdlib Require Import Ascii.
From stdpp Require Import base strings gmap list option.

Local Open Scope string_scope.
Local Open Scope list_scope.

(* ===================================================================== *)
(** * Python: exceptions, results, state passing                          *)
(* ===================================================================== *)

Module Py.

(** The exceptions that occur in the two files, with [BaseException]'s
    three direct subclasses that are not subclasses of [Exception]. *)
Inductive PyExc : Type :=
| AttributeError (owner attr : string)
| NameError (name : string)
| KeyError
| ValueError
| TypeError (msg : string)
| ImportError (module : string)
| FrozenInstanceError (attr : string)
| RuntimeError (msg : string)
| KeyboardInterrupt
| SystemExit
| GeneratorExit.

(** [isinstance(exc, Exception)] *)
Definition is_Exception (exc : PyExc) : bool :=
  match exc with
  | KeyboardInterrupt | SystemExit | GeneratorExit => false
  | _ => true
  end.

(** A call returns a value or raises. *)
Inductive Res (A : Type) : Type :=
| Returned (a : A)
| Raised (exc : PyExc).
Arguments Returned {A} a.
Arguments Raised {A} exc.

Definition returns {A} (r : Res A) : bool :=
  match r with Returned _ => true | Raised _ => false end.

(** Code over a mutable state [S]: the state survives a raise. *)
Definition M (S A : Type) : Type := S -> Res A * S.

Definition ret {S A} (a : A) : M S A := fun s => (Returned a, s).
Definition raise {S A} (exc : PyExc) : M S A := fun s => (Raised exc, s).
Definition bind {S A B} (m : M S A) (k : A -> M S B) : M S B :=
  fun s => match m s with
           | (Returned a, s') => k a s'
           | (Raised exc, s') => (Raised exc, s')
           end.
Definition get {S} : M S S := fun s => (Returned s, s).
Definition put {S} (s : S) : M S unit := fun _ => (Returned tt, s).
Definition lift {S A} (r : Res A) : M S A := fun s => (r, s).

End Py.
Export Py.

Notation "'let!' x ':=' m 'in' k" := (bind m (fun x => k))
(at level 10, x name, m at level 100, k at level 200).
Notation "m1 '>>>' m2" := (bind m1 (fun _ => m2))
(at level 62, right associativity).

(* ===================================================================== *)
(** * Name spaces, attribute lookup, dataclasses                          *)
(* ===================================================================== *)

Module PyObjects.

(** The objects that the top-level code of the two files binds to names. *)
Inductive PyObj : Type :=
| ObjNone
| ObjModule (name : string)
| ObjClass (name : string)
| ObjFunction (qualname : string)
| ObjClassmethod (qualname : string)
| ObjSpecialForm (name : string)
| ObjLock
| ObjDict
| ObjOther (descr : string).

(** A name space ([globals()], a class body's name space, an instance
    [__dict__], a frame's locals): names to objects. *)
Abbreviation Namespace := (gmap string PyObj).

(** [name = value] in the current name space. *)
Definition store (name : string) (v : PyObj) : M Namespace unit :=
  fun ns => (Returned tt, <[name := v]> ns).

(** ** [dataclasses.dataclass]

    The decorator collects the annotated fields of the class body in the
    order of their declaration and, building [__init__], refuses a field
    without default that comes after a field with one
    ([seen_default] in [dataclasses._init_fn]).  A field assigned
    [field(default_factory=...)] has a default. *)
Record FieldDecl : Type := mkField {
  f_name : string;
  f_has_default : bool
}.

Fixpoint check_field_order (seen_default : bool) (fs : list FieldDecl)
  : Res unit :=
  match fs with
  | [] => Returned tt
  | f :: fs' =>
      if f_has_default f then check_field_order true fs'
      else if seen_default
           then Raised (TypeError ("non-default argument '" +:+ f_name f
                                   +:+ "' follows default argument"))
           else check_field_order seen_default fs'
  end.

(** [@dataclass class name: fields]: the class object, or the error of
    the decorator. *)
Definition dataclass (name : string) (fs : list FieldDecl) : Res PyObj :=
  match check_field_order false fs with
  | Returned _ => Returned (ObjClass name)
  | Raised exc => Raised exc
  end.

(** ** The library objects the files use

    What [getattr], a call without arguments and an item assignment do on
    the objects of the standard library that the files touch. *)
Record PyEnv : Type := mkEnv {
  env_getattr : PyObj -> string -> Res PyObj;
  env_call : PyObj -> Res PyObj;
  env_setitem : PyObj -> PyObj -> PyObj -> Res unit
}.

(** The public names of the [threading] module (CPython 3.11). *)
Definition threading_public_names : list string :=
  [ "Barrier"; "BoundedSemaphore"; "BrokenBarrierError"; "Condition";
    "Event"; "ExceptHookArgs"; "Lock"; "RLock"; "Semaphore"; "TIMEOUT_MAX";
    "Thread"; "ThreadError"; "Timer"; "WeakSet"; "activeCount";
    "active_count"; "currentThread"; "current_thread"; "enumerate";
    "excepthook"; "functools"; "get_ident"; "get_native_id"; "getprofile";
    "gettrace"; "local"; "main_thread"; "setprofile"; "settrace";
    "stack_size" ].

Definition type_name (o : PyObj) : string :=
  match o with
  | ObjNone => "NoneType"
  | ObjModule _ => "module"
  | ObjClass _ => "type"
  | ObjFunction _ => "function"
  | ObjClassmethod _ => "classmethod"
  | ObjSpecialForm _ => "_SpecialForm"
  | ObjLock => "lock"
  | ObjDict => "dict"
  | ObjOther d => d
  end.

Definition cpython_getattr (o : PyObj) (attr : string) : Res PyObj :=
  match o with
  | ObjModule m =>
      if decide (m = "threading" /\ attr ∈ threading_public_names)
      then Returned (ObjOther (m +:+ "." +:+ attr))
      else Raised (AttributeError m attr)
  | _ => Raised (AttributeError (type_name o) attr)
  end.

Definition cpython_call (f : PyObj) : Res PyObj :=
  match f with
  | ObjOther d =>
      if decide (d = "threading.Lock") then Returned ObjLock
      else Raised (TypeError ("'" +:+ d +:+ "' object is not callable"))
  | _ => Raised (TypeError ("'" +:+ type_name f +:+ "' object is not callable"))
  end.

Definition cpython_setitem (o k v : PyObj) : Res unit :=
  match o with
  | ObjDict => Returned tt
  | _ => Raised (TypeError ("'" +:+ type_name o
                            +:+ "' object does not support item assignment"))
  end.

Definition cpython : PyEnv := mkEnv cpython_getattr cpython_call cpython_setitem.

(** A name read in a class body: the class name space, then the globals. *)
Definition lookup_name (globals : Namespace) (name : string)
  : M Namespace PyObj :=
  fun ns => match ns !! name with
            | Some v => (Returned v, ns)
            | None => match globals !! name with
                      | Some v => (Returned v, ns)
                      | None => (Raised (NameError name), ns)
                      end
            end.

(** A global read inside a function body. *)
Definition load_global (globals : Namespace) (name : string) : Res PyObj :=
  match globals !! name with
  | Some v => Returned v
  | None => Raised (NameError name)
  end.

(** [class name: body] at module level: the body runs in a fresh name
    space; when it returns the class is created and bound, when it raises
    the statement raises and binds nothing. *)
Definition class_statement (name : string)
    (body : Namespace -> M Namespace unit) : M Namespace unit :=
  fun globals =>
    match body globals ∅ with
    | (Returned _, _) => (Returned tt, <[name := ObjClass name]> globals)
    | (Raised exc, _) => (Raised exc, globals)
    end.

(** [@dataclass class name: ...] at module level. *)
Definition dataclass_statement (name : string) (fs : list FieldDecl)
  : M Namespace unit :=
  let! c := lift (dataclass name fs) in store name c.

(** [import m]: the top level of [m] runs on an empty name space; the
    import raises what the top level raises. *)
Definition import_module (toplevel : M Namespace unit) : Res Namespace :=
  match toplevel ∅ with
  | (Returned _, ns) => Returned ns
  | (Raised exc, _) => Raised exc
  end.

(** ** Attribute lookup

    The attributes every object has from [object], and every class has from
    its metaclass [type]. *)
Definition object_attrs : list string :=
  [ "__class__"; "__delattr__"; "__dir__"; "__doc__"; "__eq__";
    "__format__"; "__ge__"; "__getattribute__"; "__getstate__"; "__gt__";
    "__hash__"; "__init__"; "__init_subclass__"; "__le__"; "__lt__";
    "__ne__"; "__new__"; "__reduce__"; "__reduce_ex__"; "__repr__";
    "__setattr__"; "__sizeof__"; "__str__"; "__subclasshook__" ].

Definition type_attrs : list string :=
  [ "__abstractmethods__"; "__annotations__"; "__base__"; "__bases__";
    "__basicsize__"; "__call__"; "__dict__"; "__dictoffset__"; "__flags__";
    "__instancecheck__"; "__itemsize__"; "__module__"; "__mro__";
    "__name__"; "__or__"; "__prepare__"; "__qualname__"; "__ror__";
    "__subclasscheck__"; "__subclasses__"; "__text_signature__";
    "__weakrefoffset__"; "mro" ].

(** [getattr(cls, name)] for a class without bases whose body left the
    name space [cls_ns]. *)
Definition getattr_class (cls_name : string) (cls_ns : Namespace)
    (name : string) : Res PyObj :=
  match cls_ns !! name with
  | Some v => Returned v
  | None =>
      if decide (name ∈ object_attrs ++ type_attrs)
      then Returned (ObjOther ("type." +:+ name))
      else Raised (AttributeError cls_name name)
  end.

(** [getattr(obj, name)] for an instance with [__dict__] [obj_dict] of that
    class. *)
Definition getattr_instance (cls_name : string) (cls_ns obj_dict : Namespace)
    (name : string) : Res PyObj :=
  match obj_dict !! name with
  | Some v => Returned v
  | None =>
      match cls_ns !! name with
      | Some v => Returned v
      | None =>
          if decide (name ∈ object_attrs)
          then Returned (ObjOther ("object." +:+ name))
          else Raised (AttributeError cls_name name)
      end
  end.

End PyObjects.
Export PyObjects.

(* ===================================================================== *)
(** * models.py                                                           *)
(* ===================================================================== *)

Module Models.

(** [class AssetType(Enum)] *)
Inductive AssetType : Type := STOCK | CRYPTO.

(** [@dataclass(frozen=True) class Tracker] *)
Record Tracker : Type := mkTracker {
  symbol : string;
  asset_type : AssetType;
  display_name : string
}.

(** The truth value of a [str]: false for the empty string only. *)
Definition str_bool (s : string) : bool :=
  match s with
  | EmptyString => false
  | String _ _ => true
  end.

(** [Tracker.__post_init__] *)
Definition __post_init__ (self : Tracker) : Tracker :=
  if negb (str_bool (display_name self))
  then (* object.__setattr__(self, "display_name", self.symbol) *)
       mkTracker (symbol self) (asset_type self) (symbol self)
  else self.

(** [Tracker(symbol, asset_type, display_name)]: the [__init__] that
    [dataclass] generates stores the three fields and calls
    [__post_init__]. *)
Definition Tracker_init (symbol : string) (asset_type : AssetType)
    (display_name : string) : Tracker :=
  __post_init__ (mkTracker symbol asset_type display_name).

(** [self.name = value] on a [Tracker]: [frozen=True] makes [dataclass]
    generate a [__setattr__] that raises for every name. *)
Definition Tracker_setattr (self : Tracker) (name : string) (value : string)
  : Res Tracker :=
  Raised (FrozenInstanceError name).

(** [del self.name] on a [Tracker]: the generated [__delattr__]. *)
Definition Tracker_delattr (self : Tracker) (name : string) : Res Tracker :=
  Raised (FrozenInstanceError name).

(** An instant ([datetime]), as a number of microseconds. *)
Definition datetime : Type := Z.

(** [@dataclass(frozen=True) class PriceSnapshot].  The field [ticker] is
    annotated [Ticker]; annotations are not enforced, and the tickers of the
    application are [Tracker] values.  A [float] is an IEEE 754 value. *)
Record PriceSnapshot : Type := mkPriceSnapshot {
  timestamp : datetime;
  price : spec_float;
  ticker : Tracker;
  changes : spec_float;
  change_pct : spec_float
}.

(** [x >= 0] on a float: the IEEE comparison with zero. *)
Definition float_ge_0 (x : spec_float) : bool := SFleb (S754_zero false) x.

(** [PriceSnapshot.is_positive] *)
Definition is_positive (self : PriceSnapshot) : bool :=
  float_ge_0 (change_pct self).

(** [PriceSnapshot.direction_symbol] *)
Definition direction_symbol (self : PriceSnapshot) : string :=
  if is_positive self then "▲" else "▼".

(** The number a finite float stands for; [None] for infinities and NaN. *)
Definition float_value (x : spec_float) : option Q :=
  match x with
  | S754_zero _ => Some 0%Q
  | S754_finite s m e =>
      let v := (inject_Z (Z.pos m) * (2 # 1) ^ e)%Q in
      Some (if s then (- v)%Q else v)
  | S754_infinity _ | S754_nan => None
  end.

(** "[x] is greater than or equal to zero", read on the numbers: a zero of
    either sign, plus infinity, or a finite float whose value is at least
    zero; NaN is not. *)
Definition nonneg_number (x : spec_float) : Prop :=
  match x with
  | S754_nan => False
  | S754_infinity negative => negative = false
  | _ => match float_value x with
         | Some q => (0 <= q)%Q
         | None => False
         end
  end.

(** The fields of the two dataclasses, in the order of their declaration. *)
Definition Tracker_fields : list FieldDecl :=
  [ mkField "symbol" false; mkField "asset_type" false;
    mkField "display_name" false ].

Definition PriceSnapshot_fields : list FieldDecl :=
  [ mkField "timestamp" true;   (* = field(default_factory=datetime.now) *)
    mkField "price" false; mkField "ticker" false; mkField "changes" false;
    mkField "change_pct" false ].

(** The top level of [models.py].  [import_Ticker] is what
    [from matplotlib.axis import Ticker] does where the file is loaded. *)
Definition models_toplevel (import_Ticker : Res PyObj) : M Namespace unit :=
  store "annotations" (ObjOther "_Feature") >>>
  store "dataclass" (ObjFunction "dataclass") >>>
  store "field" (ObjFunction "field") >>>
  store "datetime" (ObjClass "datetime") >>>
  store "Enum" (ObjClass "Enum") >>>
  store "auto" (ObjClass "auto") >>>
  (let! t := lift import_Ticker in store "Ticker" t) >>>
  store "AssetType" (ObjClass "AssetType") >>>
  dataclass_statement "Tracker" Tracker_fields >>>
  dataclass_statement "PriceSnapshot" PriceSnapshot_fields.

End Models.
Export Models.

(* ===================================================================== *)
(** * events.py: the event records                                        *)
(* ===================================================================== *)

Module Events.

(** The six frozen dataclasses.  A [timestamp] left out by the caller is
    [datetime.now()]; here the instant is always given. *)
Record PriceUpdateEvent : Type := mkPriceUpdateEvent {
  snapshot : PriceSnapshot;
  pu_timestamp : datetime
}.

Record FetchFailedEvent : Type := mkFetchFailedEvent {
  ff_ticker : Tracker;
  reason : string;
  ff_timestamp : datetime
}.

Record TickerAddedEvent : Type := mkTickerAddedEvent {
  ta_ticker : Tracker
}.

Record TickerRemovedEvent : Type := mkTickerRemovedEvent {
  tr_ticker : Tracker
}.

Record RefreshStartedEvent : Type := mkRefreshStartedEvent {
  rs_timestamp : datetime
}.

Record RefreshCompletedEvent : Type := mkRefreshCompletedEvent {
  success_count : Z;
  failure_count : Z;
  rc_timestamp : datetime
}.

(** An instance of one of the six classes. *)
Inductive DomainEvent : Type :=
| PriceUpdate (e : PriceUpdateEvent)
| FetchFailed (e : FetchFailedEvent)
| TickerAdded (e : TickerAddedEvent)
| TickerRemoved (e : TickerRemovedEvent)
| RefreshStarted (e : RefreshStartedEvent)
| RefreshCompleted (e : RefreshCompletedEvent).

(** The six classes themselves, the keys of the registry. *)
Inductive EventClass : Type :=
| PriceUpdateEvent_t
| FetchFailedEvent_t
| TickerAddedEvent_t
| TickerRemovedEvent_t
| RefreshStartedEvent_t
| RefreshCompletedEvent_t.

(** [type(event)] *)
Definition type_of_event (event : DomainEvent) : EventClass :=
  match event with
  | PriceUpdate _ => PriceUpdateEvent_t
  | FetchFailed _ => FetchFailedEvent_t
  | TickerAdded _ => TickerAddedEvent_t
  | TickerRemoved _ => TickerRemovedEvent_t
  | RefreshStarted _ => RefreshStartedEvent_t
  | RefreshCompleted _ => RefreshCompletedEvent_t
  end.

#[global] Instance EventClass_eq_dec : EqDecision EventClass.
Proof. solve_decision. Defined.

Definition EventClass_code (c : EventClass) : nat :=
  match c with
  | PriceUpdateEvent_t => 0
  | FetchFailedEvent_t => 1
  | TickerAddedEvent_t => 2
  | TickerRemovedEvent_t => 3
  | RefreshStartedEvent_t => 4
  | RefreshCompletedEvent_t => 5
  end.

Definition EventClass_of_code (n : nat) : option EventClass :=
  match n with
  | 0 => Some PriceUpdateEvent_t
  | 1 => Some FetchFailedEvent_t
  | 2 => Some TickerAddedEvent_t
  | 3 => Some TickerRemovedEvent_t
  | 4 => Some RefreshStartedEvent_t
  | 5 => Some RefreshCompletedEvent_t
  | _ => None
  end.

#[global] Instance EventClass_countable : Countable EventClass.
Proof.
  apply (inj_countable EventClass_code EventClass_of_code).
  intros []; reflexivity.
Defined.

(** The fields of the six dataclasses, in the order of their declaration. *)
Definition PriceUpdateEvent_fields : list FieldDecl :=
  [ mkField "snapshot" false; mkField "timestamp" true ].
Definition FetchFailedEvent_fields : list FieldDecl :=
  [ mkField "ticker" false; mkField "reason" false; mkField "timestamp" true ].
Definition TickerAddedEvent_fields : list FieldDecl :=
  [ mkField "ticker" false ].
Definition TickerRemovedEvent_fields : list FieldDecl :=
  [ mkField "ticker" false ].
Definition RefreshStartedEvent_fields : list FieldDecl :=
  [ mkField "timestamp" true ].
Definition RefreshCompletedEvent_fields : list FieldDecl :=
  [ mkField "success_count" false; mkField "failure_count" false;
    mkField "timestamp" true ].

End Events.
Export Events.

(* ===================================================================== *)
(** * The [dict] and [list] operations of the bus                         *)
(* ===================================================================== *)

Module PyData.

Section Dict.
Context {K V : Type} `{Countable K}.

(** [k in d] *)
Definition dict_contains (k : K) (d : gmap K V) : bool :=
  bool_decide (is_Some (d !! k)).

(** [d[k]] *)
Definition dict_getitem (k : K) (d : gmap K V) : Res V :=
  match d !! k with
  | Some v => Returned v
  | None => Raised KeyError
  end.

(** [d.get(k, dflt)] *)
Definition dict_get (k : K) (dflt : V) (d : gmap K V) : V :=
  match d !! k with
  | Some v => v
  | None => dflt
  end.

End Dict.

Section List.
Context {A : Type} `{EqDecision A}.

(** [x in l] *)
Definition list_contains (x : A) (l : list A) : bool := bool_decide (x ∈ l).

(** [l.remove(x)]: the first item equal to [x] goes; [ValueError] when there
    is none. *)
Fixpoint list_remove (x : A) (l : list A) : Res (list A) :=
  match l with
  | [] => Raised ValueError
  | y :: l' =>
      if decide (y = x) then Returned l'
      else match list_remove x l' with
           | Returned r => Returned (y :: r)
           | Raised exc => Raised exc
           end
  end.

(** How many items of [l] are [x]. *)
Definition occurrences (x : A) (l : list A) : nat :=
  length (filter (fun y => y = x) l).

End List.

End PyData.
Export PyData.

(* ===================================================================== *)
(** * events.py: the event bus                                            *)
(* ===================================================================== *)

Module Bus.

Section Registry.
Context {EventType Handler : Type} `{Countable EventType}
        `{EqDecision Handler}.

(** What [__init__] stores on a bus: the registry [_subscribers], a [dict]
    from event types to lists of handlers.  ([_sub_lock] is free between the
    calls of this sequential model.) *)
Record EventBus : Type := mkBus {
  _subscribers : gmap EventType (list Handler)
}.

(** [EventBus.__init__]: [self._subscribers = {}] *)
Definition EventBus_init : EventBus := mkBus ∅.

(** [subscribe(self, event_type, handler)] *)
Definition subscribe (event_type : EventType) (handler : Handler)
  : M EventBus unit :=
  let! self := get in
  (if negb (dict_contains event_type (_subscribers self))
   then put (mkBus (<[event_type := []]> (_subscribers self)))
   else ret tt) >>>
  let! self := get in
  let! l := lift (dict_getitem event_type (_subscribers self)) in
  (* .append(handler) on the list stored under event_type *)
  put (mkBus (<[event_type := l ++ [handler]]> (_subscribers self))).

(** [unsubscribe(self, event_type, handler)].  When [event_type] is a key,
    [handlers] is the very list the registry stores, and [remove] changes it
    in place; when it is not, [handlers] is a fresh empty list. *)
Definition unsubscribe (event_type : EventType) (handler : Handler)
  : M EventBus unit :=
  let! self := get in
  let handlers := dict_get event_type [] (_subscribers self) in
  if list_contains handler handlers
  then let! l := lift (list_remove handler handlers) in
       put (mkBus (<[event_type := l]> (_subscribers self)))
  else ret tt.

(** The handlers registered for [event_type], in the order of the list. *)
Definition handlers_of (event_type : EventType) (self : EventBus)
  : list Handler :=
  dict_get event_type [] (_subscribers self).

(** [subscribe(event_type, h)] for each [h] of [handlers], in order. *)
Fixpoint subscribe_all (event_type : EventType) (handlers : list Handler)
  : M EventBus unit :=
  match handlers with
  | [] => ret tt
  | h :: rest => subscribe event_type h >>> subscribe_all event_type rest
  end.

(** ** The singleton

    The buses constructed so far, by address, and the class attribute
    [EventBus._instance]. *)
Record ClassState : Type := mkClassState {
  objects : list EventBus;
  _instance : option nat
}.

(** No bus yet, [_instance = None]: the state after the class statement. *)
Definition ClassState_init : ClassState := mkClassState [] None.

(** [cls()]: a new object, initialised by [__init__]. *)
Definition EventBus_new : M ClassState nat :=
  fun cls => (Returned (length (objects cls)),
              mkClassState (objects cls ++ [EventBus_init]) (_instance cls)).

Definition set_instance (v : option nat) : M ClassState unit :=
  fun cls => (Returned tt, mkClassState (objects cls) v).

(** [instance(cls)]; the value returned is [cls._instance]. *)
Definition instance : M ClassState (option nat) :=
  let! cls := get in
  (match _instance cls with
   | None =>
       (* with cls._lock: *)
       let! cls := get in
       match _instance cls with
       | None => let! b := EventBus_new in set_instance (Some b)
       | Some _ => ret tt
       end
   | Some _ => ret tt
   end) >>>
  let! cls := get in
  ret (_instance cls).

(** [reset(cls)] *)
Definition reset : M ClassState unit :=
  (* with cls._lock: *)
  set_instance None.

(** A method call on the bus at address [a]. *)
Definition on_bus {A} (a : nat) (m : M EventBus A) : M ClassState (option A) :=
  fun cls =>
    match objects cls !! a with
    | Some b => match m b with
                | (Returned x, b') =>
                    (Returned (Some x),
                     mkClassState (<[a := b']> (objects cls)) (_instance cls))
                | (Raised exc, b') =>
                    (Raised exc,
                     mkClassState (<[a := b']> (objects cls)) (_instance cls))
                end
    | None => (Returned None, cls)
    end.

(** [_instance], when set, is the address of a constructed bus. *)
Definition wf_class (cls : ClassState) : Prop :=
  forall a, _instance cls = Some a -> a < length (objects cls).

End Registry.

Arguments EventBus : clear implicits.
Arguments EventBus EventType Handler {_ _}.
Arguments ClassState : clear implicits.
Arguments ClassState EventType Handler {_ _}.

Section Dispatch.
Context {Event EventType Handler U : Type} `{Countable EventType}
        `{EqDecision Handler}.

(** What a dispatch does on its own account: it calls a handler with an
    event, and it prints the line
    [[EventBus] Handler {handler} raised: {exc}]. *)
Inductive Obs : Type :=
| Invoked (handler : Handler) (event : Event)
| Printed (handler : Handler) (exc : PyExc).

(** The state a publish runs in: the bus, the rest of the application's
    state, and the record of what dispatches did. *)
Record World : Type := mkWorld {
  bus : EventBus EventType Handler;
  user : U;
  log : list Obs
}.

(** [type(event)] *)
Variable type_of : Event -> EventType.

(** What calling a handler with an event does: it returns or raises, and it
    may change the application's state and the bus (a handler may call
    [subscribe], [unsubscribe] and [publish] on the bus). *)
Variable run : Handler -> Event ->
               M (EventBus EventType Handler * U) unit.

(** What formatting and printing the diagnostic of a handler and an
    exception does, in the state the handler left: it returns or raises,
    and it may change the application's state and the bus.  [str] of the
    handler and of the exception and the [write] of [sys.stdout] are the
    application's code; an encoding error and a closed stream are ways for
    the write to raise. *)
Variable printing : Handler -> PyExc ->
                    M (EventBus EventType Handler * U) unit.

(** [handler(event)] *)
Definition invoke (handler : Handler) (event : Event) : M World unit :=
  fun w =>
    let '(r, (b, u)) := run handler event (bus w, user w) in
    (r, mkWorld b u (log w ++ [Invoked handler event])).

(** [print(f"[EventBus] Handler {handler} raised: {exc}")]: the line is on
    the log when the call returned; what the call raises is raised. *)
Definition print_raised (handler : Handler) (exc : PyExc) : M World unit :=
  fun w =>
    let '(r, (b, u)) := printing handler exc (bus w, user w) in
    match r with
    | Returned _ =>
        (Returned tt, mkWorld b u (log w ++ [Printed handler exc]))
    | Raised exc' => (Raised exc', mkWorld b u (log w))
    end.

(** [try: body  except Exception as exc: on_exc(exc)]; what [on_exc] raises
    is raised by the statement. *)
Definition try_except_Exception {S A} (body : M S A) (on_exc : PyExc -> M S A)
  : M S A :=
  fun s =>
    match body s with
    | (Returned a, s') => (Returned a, s')
    | (Raised exc, s') =>
        if is_Exception exc then on_exc exc s' else (Raised exc, s')
    end.

(** The body of the loop, lines 119 to 123:
    [try: handler(event)  except Exception as exc: print(...)] *)
Definition attempt (handler : Handler) (event : Event) : M World unit :=
  try_except_Exception (invoke handler event)
                       (fun exc => print_raised handler exc).

(** [for handler in handlers: try: handler(event) except ...] *)
Fixpoint dispatch (handlers : list Handler) (event : Event) : M World unit :=
  match handlers with
  | [] => ret tt
  | handler :: rest => attempt handler event >>> dispatch rest event
  end.

(** The world the body of the loop leaves for [handler]: the state the
    handler left, the call on the log, and the diagnostic when it was
    printed. *)
Definition after_handler (handler : Handler) (event : Event) (w : World)
  : World :=
  snd (attempt handler event w).

(** A method of the bus, called in a world. *)
Definition call_bus {A} (m : M (EventBus EventType Handler) A) : M World A :=
  fun w => let '(r, b) := m (bus w) in (r, mkWorld b (user w) (log w)).

(** [publish(self, event)] *)
Definition publish (event : Event) : M World unit :=
  let event_type := type_of event in
  let! w := get in
  (* with self._sub_lock: a copy of the list *)
  let handlers := dict_get event_type [] (_subscribers (bus w)) in
  dispatch handlers event.

(** The handler calls among the entries of a log. *)
Definition invocations (l : list Obs) : list (Handler * Event) :=
  omap (fun o => match o with
                 | Invoked h e => Some (h, e)
                 | Printed _ _ => None
                 end) l.

(** The call of [handler] with [event] in the state [s] lets the loop go
    on: whatever it raises is an [Exception], and the diagnostic for it is
    printed without error. *)
Definition passes (handler : Handler) (event : Event)
    (s : EventBus EventType Handler * U) : Prop :=
  forall exc,
    fst (run handler event s) = Raised exc ->
    is_Exception exc = true /\
    fst (printing handler exc (snd (run handler event s))) = Returned tt.

(** The body of the loop on the bus and the application's state: the call
    of the handler and, when it raises an [Exception], the print of the
    diagnostic in the state the handler left. *)
Definition handling (handler : Handler) (event : Event)
  : M (EventBus EventType Handler * U) unit :=
  try_except_Exception (run handler event) (printing handler).

End Dispatch.

Arguments Obs : clear implicits.
Arguments World : clear implicits.
Arguments World Event EventType Handler U {_ _}.

End Bus.
Export Bus.

(* ===================================================================== *)
(** * events.py: the class statement and the top level                    *)
(* ===================================================================== *)

Module EventsModule.

(** The operations the bus is meant to offer. *)
Definition bus_operations : list string :=
  [ "instance"; "reset"; "subscribe"; "unsubscribe"; "publish" ].

(** The frame of a call of [__init__]: the [__dict__] of [self] and the
    local variables. *)
Record Frame : Type := mkFrame {
  self_dict : Namespace;
  locals : Namespace
}.

(** [self.name = v] *)
Definition setattr_self (name : string) (v : PyObj) : M Frame unit :=
  fun f => (Returned tt, mkFrame (<[name := v]> (self_dict f)) (locals f)).

(** [def name(...)] inside a function body: a local variable. *)
Definition def_local (name : string) (v : PyObj) : M Frame unit :=
  fun f => (Returned tt, mkFrame (self_dict f) (<[name := v]> (locals f))).

(** [threading.Lock()] inside a function body. *)
Definition threading_Lock {S} (env : PyEnv) (globals : Namespace)
  : M S PyObj :=
  let! thr := lift (load_global globals "threading") in
  let! f := lift (env_getattr env thr "Lock") in
  lift (env_call env f).

(** [EventBus.__init__], lines 58 to 123: two attributes of [self], then
    five [def] statements in the body of [__init__]. *)
Definition EventBus___init__ (env : PyEnv) (globals : Namespace)
  : M Frame unit :=
  setattr_self "_subscribers" ObjDict >>>
  (let! lk := threading_Lock env globals in setattr_self "_sub_lock" lk) >>>
  def_local "instance" (ObjClassmethod "EventBus.__init__.<locals>.instance") >>>
  def_local "reset" (ObjClassmethod "EventBus.__init__.<locals>.reset") >>>
  def_local "subscribe" (ObjFunction "EventBus.__init__.<locals>.subscribe") >>>
  def_local "unsubscribe"
            (ObjFunction "EventBus.__init__.<locals>.unsubscribe") >>>
  def_local "publish" (ObjFunction "EventBus.__init__.<locals>.publish").

(** The frame [__init__] starts in: a new object, and [self] as the only
    local variable. *)
Definition new_frame : Frame :=
  mkFrame ∅ {[ "self" := ObjOther "EventBus" ]}.

(** [EventBus()]: [__init__] runs on a new object; the caller receives the
    object, that is its [__dict__], and the frame with its locals is gone. *)
Definition EventBus_call (env : PyEnv) (globals : Namespace)
  : Res unit * Namespace :=
  let '(r, f) := EventBus___init__ env globals new_frame in
  (r, self_dict f).

(** Line 55: [_instance: ClassVar[Optional[EventBus]] = None].  Under
    [from __future__ import annotations] the annotation is not evaluated. *)
Definition EventBus_line55 : M Namespace unit :=
  store "_instance" ObjNone.

(** Line 56: [_lock = ClassVar[threading.lock] = threading.Lock()].  The
    value is computed, then bound to the targets from left to right; the
    second target is a subscription of [ClassVar]. *)
Definition EventBus_line56 (env : PyEnv) (globals : Namespace)
  : M Namespace unit :=
  let! v := (let! thr := lookup_name globals "threading" in
             let! f := lift (env_getattr env thr "Lock") in
             lift (env_call env f)) in
  store "_lock" v >>>
  let! cv := lookup_name globals "ClassVar" in
  let! thr := lookup_name globals "threading" in
  let! k := lift (env_getattr env thr "lock") in
  lift (env_setitem env cv k v).

(** Line 58: [def __init__(self)]. *)
Definition EventBus_line58 : M Namespace unit :=
  store "__init__" (ObjFunction "EventBus.__init__").

(** The body of [class EventBus], lines 55 to 123. *)
Definition EventBus_body (env : PyEnv) (globals : Namespace)
  : M Namespace unit :=
  store "__module__" (ObjOther "str") >>>
  store "__qualname__" (ObjOther "str") >>>
  store "__annotations__" ObjDict >>>
  EventBus_line55 >>>
  EventBus_line56 env globals >>>
  EventBus_line58.

(** Lines 1 to 49 of [events.py]: the imports, the six dataclasses and the
    two aliases.  [import_models] is what
    [from models import Ticker, PriceSnapshot] does where the file is
    loaded. *)
Definition events_prelude (import_models : Res (PyObj * PyObj))
  : M Namespace unit :=
  store "annotations" (ObjOther "_Feature") >>>
  store "dataclass" (ObjFunction "dataclass") >>>
  store "field" (ObjFunction "field") >>>
  store "datetime" (ObjClass "datetime") >>>
  store "Callable" (ObjOther "typing.Callable") >>>
  store "ClassVar" (ObjSpecialForm "ClassVar") >>>
  store "List" (ObjOther "typing.List") >>>
  store "threading" (ObjModule "threading") >>>
  (let! tp := lift import_models in
   store "Ticker" (fst tp) >>> store "PriceSnapshot" (snd tp)) >>>
  dataclass_statement "PriceUpdateEvent" PriceUpdateEvent_fields >>>
  dataclass_statement "FetchFailedEvent" FetchFailedEvent_fields >>>
  dataclass_statement "TickerAddedEvent" TickerAddedEvent_fields >>>
  dataclass_statement "TickerRemovedEvent" TickerRemovedEvent_fields >>>
  dataclass_statement "RefreshStartedEvent" RefreshStartedEvent_fields >>>
  dataclass_statement "RefreshCompletedEvent" RefreshCompletedEvent_fields >>>
  store "EventHandler" (ObjOther "typing.Callable[[object], NoneType]") >>>
  store "EventType" (ObjClass "type").

(** The top level of [events.py]. *)
Definition events_toplevel (env : PyEnv) (import_models : Res (PyObj * PyObj))
  : M Namespace unit :=
  events_prelude import_models >>>
  class_statement "EventBus" (EventBus_body env).

(** The globals of [events.py] when the class statement of line 52 is
    reached, the import of line 7 having succeeded. *)
Definition events_globals : Namespace :=
  snd (events_prelude (Returned (ObjClass "Ticker", ObjClass "PriceSnapshot"))
                      ∅).

End EventsModule.
Export EventsModule.

(* ===================================================================== *)
(** * A small application: seven handlers and three events                 *)
(* ===================================================================== *)

Module Demo.

(** Seven subscribers: two panels that count the events they see, a handler
    whose fetch fails, one interrupted from the keyboard, one that
    unsubscribes itself when called, one that unsubscribes itself and
    then ends the program with [sys.exit()], and one that fails with a
    message the standard output cannot encode. *)
Inductive DemoHandler : Type :=
| PanelA
| PanelB
| Faulty
| Interrupted
| OneShot
| Quitter
| Garbled.

#[global] Instance DemoHandler_eq_dec : EqDecision DemoHandler.
Proof. solve_decision. Defined.

Abbreviation DemoBus := (EventBus EventClass DemoHandler).
Abbreviation DemoWorld := (World DomainEvent EventClass DemoHandler nat).

Definition demo_run (handler : DemoHandler) (event : DomainEvent)
  : M (DemoBus * nat) unit :=
  fun s =>
    let '(b, n) := s in
    match handler with
    | PanelA | PanelB => (Returned tt, (b, S n))
    | Faulty => (Raised (RuntimeError "HTTP 500"), (b, n))
    | Interrupted => (Raised KeyboardInterrupt, (b, n))
    | OneShot =>
        let '(r, b') := unsubscribe (type_of_event event) OneShot b in
        (r, (b', n))
    | Quitter =>
        let '(_, b') := unsubscribe (type_of_event event) Quitter b in
        (Raised SystemExit, (b', n))
    | Garbled => (Raised (RuntimeError "bad ▲"), (b, n))
    end.

(** The standard output of the application encodes ASCII only: the
    diagnostic of [Garbled] cannot be written ([UnicodeEncodeError], a
    [ValueError]); the others are printed.  Printing changes nothing in the
    application. *)
Definition demo_printing (handler : DemoHandler) (exc : PyExc)
  : M (DemoBus * nat) unit :=
  fun s =>
    match handler with
    | Garbled => (Raised ValueError, s)
    | _ => (Returned tt, s)
    end.

Definition refresh_completed : DomainEvent :=
  RefreshCompleted (mkRefreshCompletedEvent 3%Z 1%Z 0%Z).

Definition fetch_failed : DomainEvent :=
  FetchFailed (mkFetchFailedEvent (Tracker_init "AAPL" STOCK "") "HTTP 500" 0%Z).

Definition ticker_removed : DomainEvent :=
  TickerRemoved (mkTickerRemovedEvent (Tracker_init "BTC" CRYPTO "Bitcoin")).

(** A new bus, nothing counted, nothing dispatched. *)
Definition demo_world : DemoWorld := mkWorld EventBus_init 0 [].

(** The world after the handlers [hs] subscribed for [T], in that order. *)
Definition demo_subscribed (T : EventClass) (hs : list DemoHandler)
  : DemoWorld :=
  snd (call_bus (subscribe_all T hs) demo_world).

(** The class after a first [instance()] and a subscription on the bus it
    returned. *)
Definition demo_class : ClassState EventClass DemoHandler :=
  snd (on_bus 0 (subscribe RefreshCompletedEvent_t PanelA)
              (snd (instance ClassState_init))).

End Demo.
Export Demo.

(* ===================================================================== *)
(** * models.py: [Tracker.key]                                            *)
(* ===================================================================== *)

Module TrackerKey.

(** The code of a character. *)
Definition code (c : ascii) : nat := nat_of_ascii c.

(** A character of the ASCII range. *)
Definition is_ascii_char (c : ascii) : bool := (code c <? 128)%nat.

(** [c] is one of the letters [A] to [Z]. *)
Definition is_ascii_upper (c : ascii) : bool :=
  ((65 <=? code c) && (code c <=? 90))%nat.

(** [c.lower()] for a character of the ASCII range: the letters [A] to [Z]
    become [a] to [z], the others stay. *)
Definition ascii_lower (c : ascii) : ascii :=
  if is_ascii_upper c then ascii_of_nat (code c + 32) else c.

(** Every character of [s] is in the ASCII range. *)
Fixpoint str_is_ascii (s : string) : bool :=
  match s with
  | EmptyString => true
  | String c s' => is_ascii_char c && str_is_ascii s'
  end.

(** [s.lower()] for a string of ASCII characters: character by
    character. *)
Fixpoint ascii_str_lower (s : string) : string :=
  match s with
  | EmptyString => EmptyString
  | String c s' => String (ascii_lower c) (ascii_str_lower s')
  end.

(** Some character of [s] is one of the letters [A] to [Z]. *)
Fixpoint has_ascii_upper (s : string) : bool :=
  match s with
  | EmptyString => false
  | String c s' => is_ascii_upper c || has_ascii_upper s'
  end.

(** Two characters are the same letter in upper and lower case, or the same
    character. *)
Definition char_eq_ignore_case (c1 c2 : ascii) : bool :=
  (code c1 =? code c2)%nat
  || (is_ascii_upper c1 && (code c2 =? code c1 + 32)%nat)
  || (is_ascii_upper c2 && (code c1 =? code c2 + 32)%nat).

(** Two strings are equal up to the case of the letters [A] to [Z]. *)
Fixpoint str_eq_ignore_case (s1 s2 : string) : bool :=
  match s1, s2 with
  | EmptyString, EmptyString => true
  | String c1 s1', String c2 s2' =>
      char_eq_ignore_case c1 c2 && str_eq_ignore_case s1' s2'
  | _, _ => false
  end.

(** The characters of the ASCII range. *)
Definition ascii_chars : list ascii := map ascii_of_nat (seq 0 128).

Section Key.

(** [s.lower()] for a string with a character outside ASCII follows the
    case tables of Unicode, which are no part of the repository. *)
Variable unicode_lower : string -> string.

(** [s.lower()] *)
Definition str_lower (s : string) : string :=
  if str_is_ascii s then ascii_str_lower s else unicode_lower s.

(** [Tracker.key]: [self.symbol.lower()] *)
Definition key (self : Tracker) : string := str_lower (symbol self).

End Key.

End TrackerKey.
Export TrackerKey.

(* ===================================================================== *)
(** * events.py: what a dispatch leaves behind                            *)
(* ===================================================================== *)

Module DispatchViews.

Section Views.
Context {Event EventType Handler U : Type} `{Countable EventType}
        `{EqDecision Handler}.

(** The handlers for which a diagnostic was printed, with the exception,
    among the entries of a log. *)
Definition diagnostics (l : list (Obs Event Handler))
  : list (Handler * PyExc) :=
  omap (fun o => match o with
                 | Invoked _ _ => None
                 | Printed h exc => Some (h, exc)
                 end) l.

(** The bus and the application state after the handlers of [handlers] were
    handled with [event] one after the other, each on the state the one
    before left, whether it returned or raised: the call of the handler
    and, when it raised an [Exception], the print of the diagnostic. *)
Definition effects_in_order
    (run : Handler -> Event -> M (EventBus EventType Handler * U) unit)
    (printing : Handler -> PyExc -> M (EventBus EventType Handler * U) unit)
    (event : Event) (handlers : list Handler)
    (s : EventBus EventType Handler * U) : EventBus EventType Handler * U :=
  foldl (fun s h => snd (handling run printing h event s)) s handlers.

End Views.

End DispatchViews.
Export DispatchViews.

(* ===================================================================== *)
(** * events.py: sequences of calls on the class                          *)
(* ===================================================================== *)

Module ClassCalls.

Section Calls.
Context {EventType Handler : Type} `{Countable EventType}
        `{EqDecision Handler}.

(** A call an application makes: [EventBus.instance()], [EventBus.reset()],
    and [subscribe] or [unsubscribe] on the bus at an address it holds. *)
Inductive ClassCall : Type :=
| CallInstance
| CallReset
| CallSubscribe (a : nat) (event_type : EventType) (handler : Handler)
| CallUnsubscribe (a : nat) (event_type : EventType) (handler : Handler).

(** The class state after one call. *)
Definition after_call (cls : ClassState EventType Handler) (c : ClassCall)
  : ClassState EventType Handler :=
  match c with
  | CallInstance => snd (instance cls)
  | CallReset => snd (reset cls)
  | CallSubscribe a T h => snd (on_bus a (subscribe T h) cls)
  | CallUnsubscribe a T h => snd (on_bus a (unsubscribe T h) cls)
  end.

(** The class state after a sequence of calls, the first call first. *)
Definition after_calls (calls : list ClassCall)
    (cls : ClassState EventType Handler) : ClassState EventType Handler :=
  foldl after_call cls calls.

(** How many of the calls are [reset()]. *)
Fixpoint resets (calls : list ClassCall) : nat :=
  match calls with
  | [] => 0
  | CallReset :: rest => S (resets rest)
  | _ :: rest => resets rest
  end.

(** The buses constructed, counted with the one the next [instance()] would
    construct, are at most one more than the resets made; and [_instance],
    when set, is the address of one of them. *)
Definition at_most_one_per_reset (cls : ClassState EventType Handler)
    (r : nat) : Prop :=
  wf_class cls /\
  length (objects cls)
  + match _instance cls with Some _ => 0 | None => 1 end <= S r.

End Calls.

Arguments ClassCall : clear implicits.

End ClassCalls.
Export ClassCalls.

(* ===================================================================== *)
(** * events.py, line 7: the import of models.py                          *)
(* ===================================================================== *)

Module Imports.

(** [from m import n1, n2], [m] not loaded yet: the top level of [m] runs;
    the import raises what it raises, and [ImportError] when it returns
    without a name. *)
Definition from_import (module : string) (toplevel : M Namespace unit)
    (n1 n2 : string) : Res (PyObj * PyObj) :=
  match import_module toplevel with
  | Returned ns =>
      match ns !! n1, ns !! n2 with
      | Some v1, Some v2 => Returned (v1, v2)
      | _, _ => Raised (ImportError module)
      end
  | Raised exc => Raised exc
  end.

(** Line 7 of [events.py], [models] being the file [models.py] of the
    repository. *)
Definition import_models (import_Ticker : Res PyObj) : Res (PyObj * PyObj) :=
  from_import "models" (models_toplevel import_Ticker) "Ticker" "PriceSnapshot".

(** The classes of events lines 9 to 45 define. *)
Definition event_class_names : list string :=
  [ "PriceUpdateEvent"; "FetchFailedEvent"; "TickerAddedEvent";
    "TickerRemovedEvent"; "RefreshStartedEvent"; "RefreshCompletedEvent" ].

End Imports.
Export Imports.

(* ===================================================================== *)
(** * Properties of models.py                                             *)
(* ===================================================================== *)

Lemma str_bool_false (s : string) : str_bool s = false <-> s = "".
Proof. destruct s; simpl; split; congruence. Qed.

Lemma str_bool_true (s : string) : str_bool s = true <-> s <> "".
Proof. destruct s; simpl; split; congruence. Qed.

Lemma Tracker_init_display_name (s : string) (a : AssetType) (d : string) :
  display_name (Tracker_init s a d) = if str_bool d then d else s.
Proof. unfold Tracker_init, __post_init__; simpl. destruct (str_bool d); reflexivity. Qed.

Lemma Tracker_post_init_idempotent (t : Tracker) :
  __post_init__ (__post_init__ t) = __post_init__ t.
Proof.
  unfold __post_init__. destruct t as [s a d]; simpl.
  destruct (str_bool d) eqn:Hd; simpl; [ rewrite Hd; reflexivity | ].
  destruct (str_bool s); reflexivity.
Qed.

(** C9, as stated, fails: a ticker constructed with an empty symbol and an
    empty display name keeps an empty display name, since [__post_init__]
    replaces it by the (empty) symbol. *)
Example Tracker_empty_symbol_empty_display_name :
  display_name (Tracker_init "" STOCK "") = "".
Proof. reflexivity. Qed.

(** C9 (amended): for every ticker constructed with a non-empty symbol or a
    non-empty display name, [display_name] is non-empty after construction;
    an empty display name supplied at construction is replaced by the
    symbol, a non-empty one is kept, the other fields are the ones supplied,
    [__post_init__] changes nothing when applied again, and assigning or
    deleting a field of the constructed value raises
    [FrozenInstanceError]. *)
Theorem Tracker_display_name_defaults_to_symbol :
  forall (s : string) (a : AssetType) (d : string),
    s <> "" \/ d <> "" ->
    let t := Tracker_init s a d in
    display_name t <> "" /\
    (d = "" -> display_name t = s) /\
    (d <> "" -> display_name t = d) /\
    symbol t = s /\
    asset_type t = a /\
    __post_init__ t = t /\
    (forall name v, Tracker_setattr t name v = Raised (FrozenInstanceError name)) /\
    (forall name, Tracker_delattr t name = Raised (FrozenInstanceError name)).
Proof.
  intros s a d Hne t.
  assert (Hdn : display_name t = if str_bool d then d else s)
    by apply Tracker_init_display_name.
  repeat split.
  - rewrite Hdn. destruct (str_bool d) eqn:Hd.
    + now apply str_bool_true.
    + apply str_bool_false in Hd. destruct Hne as [Hs | Hd']; congruence.
  - intros ->. exact Hdn.
  - intros Hd. apply str_bool_true in Hd. now rewrite Hdn, Hd.
  - unfold t, Tracker_init, __post_init__; simpl. now destruct (str_bool d).
  - unfold t, Tracker_init, __post_init__; simpl. now destruct (str_bool d).
  - apply Tracker_post_init_idempotent.
Qed.

Lemma Tracker_display_name_defaults_to_symbol_witness :
  let t := Tracker_init "BTC" CRYPTO "" in
  display_name t <> "" /\
  ("" = "" -> display_name t = "BTC") /\
  ("" <> "" -> display_name t = "") /\
  symbol t = "BTC" /\
  asset_type t = CRYPTO /\
  __post_init__ t = t /\
  (forall name v, Tracker_setattr t name v = Raised (FrozenInstanceError name)) /\
  (forall name, Tracker_delattr t name = Raised (FrozenInstanceError name)).
Proof.
  apply (Tracker_display_name_defaults_to_symbol "BTC" CRYPTO "").
  left. discriminate.
Defined.

Lemma finite_magnitude_pos (m : positive) (e : Z) :
  (0 < inject_Z (Z.pos m) * (2 # 1) ^ e)%Q.
Proof.
  apply Qmult_lt_0_compat.
  - unfold Qlt; simpl. lia.
  - apply Qpower_0_lt. reflexivity.
Qed.

Lemma float_ge_0_nonneg (x : spec_float) :
  float_ge_0 x = true <-> nonneg_number x.
Proof.
  destruct x as [sgn | sgn | | sgn m e]; unfold float_ge_0, nonneg_number; simpl.
  - split; [ intros _; apply Qle_refl | reflexivity ].
  - destruct sgn; simpl; split; intros Hx; first [ reflexivity | discriminate Hx ].
  - split; [ discriminate | tauto ].
  - pose proof (finite_magnitude_pos m e) as Hpos.
    destruct sgn; simpl; split; try discriminate; try reflexivity.
    + intros Hle. exfalso.
      apply (Qlt_irrefl 0).
      apply Qlt_le_trans with (y := (inject_Z (Z.pos m) * (2 # 1) ^ e)%Q); [ exact Hpos | ].
      apply Qopp_le_compat in Hle.
      rewrite Qopp_opp in Hle. exact Hle.
    + intros _. apply Qlt_le_weak. exact Hpos.
Qed.

(** C10: for every price snapshot, [is_positive] holds exactly when
    [change_pct] is greater than or equal to zero; the direction indicator
    is one of two symbols, it is the upward one exactly when [is_positive]
    holds, and a [change_pct] equal to zero (of either sign) is classified
    as positive and shown as up. *)
Theorem is_positive_iff_change_pct_nonneg :
  forall snap : PriceSnapshot,
    (is_positive snap = true <-> nonneg_number (change_pct snap)) /\
    (direction_symbol snap = "▲" \/ direction_symbol snap = "▼") /\
    (direction_symbol snap = "▲" <-> is_positive snap = true) /\
    (direction_symbol snap = "▼" <-> is_positive snap = false) /\
    (forall sgn, change_pct snap = S754_zero sgn ->
                 is_positive snap = true /\ direction_symbol snap = "▲").
Proof.
  intros snap. split; [ apply float_ge_0_nonneg | ].
  assert (Hzero : forall sgn, change_pct snap = S754_zero sgn ->
                              is_positive snap = true).
  { intros sgn Hz. unfold is_positive. rewrite Hz. reflexivity. }
  unfold direction_symbol.
  destruct (is_positive snap) eqn:Hp.
  - split; [ left; reflexivity | ].
    split; [ split; reflexivity | ].
    split; [ split; discriminate | ].
    intros sgn _. split; reflexivity.
  - split; [ right; reflexivity | ].
    split; [ split; discriminate | ].
    split; [ split; reflexivity | ].
    intros sgn Hz. specialize (Hzero sgn Hz). discriminate.
Qed.

Lemma check_field_order_after_default (fs : list FieldDecl) (f : FieldDecl) :
  f_has_default f = false ->
  check_field_order true (f :: fs)
  = Raised (TypeError ("non-default argument '" +:+ f_name f
                       +:+ "' follows default argument")).
Proof. intros Hf. simpl. rewrite Hf. reflexivity. Qed.

Lemma store_returns (name : string) (v : PyObj) (ns : Namespace) :
  store name v ns = (Returned tt, <[name := v]> ns).
Proof. reflexivity. Qed.

(** C8: [PriceSnapshot] declares the defaulted field [timestamp] before the
    fields [price], [ticker], [changes] and [change_pct], which have no
    default; [dataclass] raises [TypeError] on the class, so loading
    [models.py] raises whatever the import of line 6 does, the name
    [PriceSnapshot] is never bound, and when that import succeeds the error
    raised is the one of the decorator. *)
Theorem PriceSnapshot_dataclass_rejected :
  PriceSnapshot_fields
  = mkField "timestamp" true
    :: map (fun n => mkField n false) ["price"; "ticker"; "changes"; "change_pct"]
  /\ dataclass "PriceSnapshot" PriceSnapshot_fields
     = Raised (TypeError "non-default argument 'price' follows default argument")
  /\ dataclass "Tracker" Tracker_fields = Returned (ObjClass "Tracker")
  /\ forall import_Ticker : Res PyObj,
       returns (import_module (models_toplevel import_Ticker)) = false
       /\ snd (models_toplevel import_Ticker ∅) !! "PriceSnapshot" = None
       /\ (returns import_Ticker = true ->
           import_module (models_toplevel import_Ticker)
           = Raised (TypeError
                       "non-default argument 'price' follows default argument")).
Proof.
  split; [ reflexivity | ].
  split; [ reflexivity | ].
  split; [ reflexivity | ].
  intros [t | exc].
  - repeat split; vm_compute; reflexivity.
  - repeat split; try (vm_compute; reflexivity). discriminate.
Qed.

(* ===================================================================== *)
(** * Properties of the registry                                          *)
(* ===================================================================== *)

Section RegistryProperties.
Context {EventType Handler : Type} `{Countable EventType}
        `{EqDecision Handler}.

Implicit Types (T : EventType) (h : Handler) (b : EventBus EventType Handler).

(** [subscribe] returns, and appends the handler to the list of its type. *)
Lemma subscribe_spec T h b :
  subscribe T h b
  = (Returned tt, mkBus (<[T := handlers_of T b ++ [h]]> (_subscribers b))).
Proof.
  unfold subscribe, handlers_of, dict_get, dict_contains, dict_getitem,
    bind, get, put, ret, lift.
  destruct (_subscribers b !! T) as [l|] eqn:Hl; simpl.
  - rewrite Hl. reflexivity.
  - rewrite lookup_insert_eq. simpl. rewrite insert_insert_eq. reflexivity.
Qed.

Lemma handlers_of_subscribe_eq T h b :
  handlers_of T (snd (subscribe T h b)) = handlers_of T b ++ [h].
Proof.
  rewrite subscribe_spec. unfold handlers_of at 1, dict_get. simpl.
  rewrite lookup_insert_eq. reflexivity.
Qed.



Lemma occurrences_cons (x y : Handler) (l : list Handler) :
  occurrences x (y :: l)
  = if decide (y = x) then S (occurrences x l) else occurrences x l.
Proof.
  unfold occurrences. rewrite filter_cons. destruct (decide (y = x)); reflexivity.
Qed.

Lemma occurrences_zero (x : Handler) (l : list Handler) :
  occurrences x l = 0 <-> x ∉ l.
Proof.
  induction l as [| y l IH].
  - split; [ intros _; apply not_elem_of_nil | reflexivity ].
  - rewrite occurrences_cons, not_elem_of_cons.
    destruct (decide (y = x)) as [-> | Hne].
    + split; [ discriminate | intros [Hx _]; congruence ].
    + rewrite IH. split; [ intros Hl; split; [ congruence | exact Hl ] | tauto ].
Qed.

(** [l.remove(x)] with [x] in [l]: no error, one occurrence of [x] less,
    the other items as before. *)
Lemma list_remove_elem (x : Handler) (l : list Handler) :
  x ∈ l ->
  exists l', list_remove x l = Returned l' /\
             occurrences x l' = pred (occurrences x l) /\
             (forall y, y <> x -> occurrences y l' = occurrences y l).
Proof.
  induction l as [| y l IH]; intros Hin.
  - apply elem_of_nil in Hin. contradiction.
  - simpl. destruct (decide (y = x)) as [-> | Hne].
    + exists l. split; [ reflexivity | split ].
      * rewrite occurrences_cons, decide_True by reflexivity. reflexivity.
      * intros y Hy. rewrite occurrences_cons, decide_False by congruence.
        reflexivity.
    + apply elem_of_cons in Hin. destruct Hin as [-> | Hin]; [ congruence | ].
      destruct (IH Hin) as (l' & Hrm & Hocc & Hoth). rewrite Hrm.
      exists (y :: l'). split; [ reflexivity | split ].
      * rewrite !occurrences_cons.
        destruct (decide (y = x)); [ congruence | exact Hocc ].
      * intros z Hz. rewrite !occurrences_cons. rewrite (Hoth z Hz). reflexivity.
Qed.

(** Unsubscribing what is not registered changes nothing. *)
Lemma unsubscribe_absent T h b :
  h ∉ handlers_of T b -> unsubscribe T h b = (Returned tt, b).
Proof.
  intros Hnin. unfold unsubscribe, bind, get, list_contains. simpl.
  fold (handlers_of T b).
  rewrite bool_decide_eq_false_2 by exact Hnin. reflexivity.
Qed.

(** [unsubscribe] never raises. *)
Lemma unsubscribe_returns T h b : fst (unsubscribe T h b) = Returned tt.
Proof.
  destruct (decide (h ∈ handlers_of T b)) as [Hin | Hnin].
  - unfold unsubscribe, bind, get, list_contains, lift, put. simpl.
    fold (handlers_of T b).
    rewrite bool_decide_eq_true_2 by exact Hin.
    destruct (list_remove_elem h _ Hin) as (l' & Hrm & _). rewrite Hrm.
    reflexivity.
  - rewrite unsubscribe_absent by exact Hnin. reflexivity.
Qed.

(** [unsubscribe] takes one registration of the handler away. *)
Lemma unsubscribe_occurrences T h b :
  occurrences h (handlers_of T (snd (unsubscribe T h b)))
  = pred (occurrences h (handlers_of T b)).
Proof.
  destruct (decide (h ∈ handlers_of T b)) as [Hin | Hnin].
  - unfold unsubscribe, bind, get, list_contains, lift, put. simpl.
    fold (handlers_of T b).
    rewrite bool_decide_eq_true_2 by exact Hin.
    destruct (list_remove_elem h _ Hin) as (l' & Hrm & Hocc & _). rewrite Hrm.
    simpl. unfold handlers_of at 1, dict_get. simpl.
    rewrite lookup_insert_eq. exact Hocc.
  - rewrite unsubscribe_absent by exact Hnin. simpl.
    apply occurrences_zero in Hnin. rewrite Hnin. reflexivity.
Qed.

(** C6: unsubscribing a handler that is not registered for the event type
    (it was never subscribed for it), or from an event type that is not a
    key of the registry (it was never used), returns without raising and
    leaves the bus, hence its registry, exactly as it was. *)
Theorem unsubscribe_unregistered_is_noop :
  forall T h b,
    h ∉ handlers_of T b \/ _subscribers b !! T = None ->
    unsubscribe T h b = (Returned tt, b).
Proof.
  intros T h b [Hnin | Hnone].
  - apply unsubscribe_absent. exact Hnin.
  - apply unsubscribe_absent. unfold handlers_of, dict_get. rewrite Hnone.
    apply not_elem_of_nil.
Qed.

End RegistryProperties.

(* ===================================================================== *)
(** * Properties of the dispatch                                          *)
(* ===================================================================== *)

Section DispatchProperties.
Context {Event EventType Handler U : Type} `{Countable EventType}
        `{EqDecision Handler}.
Variable type_of : Event -> EventType.
Variable run : Handler -> Event -> M (EventBus EventType Handler * U) unit.
Variable printing : Handler -> PyExc ->
                    M (EventBus EventType Handler * U) unit.

Local Abbreviation W := (World Event EventType Handler U).
Implicit Types (e : Event) (h g : Handler) (hs : list Handler) (w : W).

(** The body of the loop, by cases on what the handler and the print do. *)
Lemma attempt_eq h e w :
  attempt run printing h e w
  = let s := snd (run h e (bus w, user w)) in
    let called := mkWorld (fst s) (snd s) (log w ++ [Invoked h e]) in
    match fst (run h e (bus w, user w)) with
    | Returned _ => (Returned tt, called)
    | Raised exc =>
        if is_Exception exc
        then let s' := snd (printing h exc s) in
             match fst (printing h exc s) with
             | Returned _ =>
                 (Returned tt,
                  mkWorld (fst s') (snd s')
                          (log w ++ [Invoked h e; Printed h exc]))
             | Raised exc' =>
                 (Raised exc',
                  mkWorld (fst s') (snd s') (log w ++ [Invoked h e]))
             end
        else (Raised exc, called)
    end.
Proof.
  unfold attempt, try_except_Exception, invoke, print_raised.
  destruct (run h e (bus w, user w)) as [[[] | exc] [b u]]; simpl.
  - reflexivity.
  - destruct (is_Exception exc); [ | reflexivity ].
    destruct (printing h exc (b, u)) as [[[] | exc'] [b' u']]; simpl;
      [ | reflexivity ].
    rewrite <- app_assoc. reflexivity.
Qed.

(** The body of the loop returns or raises as [handling] does, and leaves
    the bus and the application's state that [handling] leaves. *)
Lemma attempt_handling h e w :
  fst (attempt run printing h e w)
  = fst (handling run printing h e (bus w, user w)) /\
  (bus (after_handler run printing h e w),
   user (after_handler run printing h e w))
  = snd (handling run printing h e (bus w, user w)).
Proof.
  unfold after_handler. rewrite attempt_eq. cbv zeta.
  unfold handling, try_except_Exception.
  destruct (run h e (bus w, user w)) as [[[] | exc] [b u]]; simpl;
    [ split; reflexivity | ].
  destruct (is_Exception exc); [ | split; reflexivity ].
  destruct (printing h exc (b, u)) as [[[] | exc'] [b' u']]; split; reflexivity.
Qed.

Lemma dispatch_cons h hs e w :
  dispatch run printing (h :: hs) e w
  = match fst (attempt run printing h e w) with
    | Returned _ => dispatch run printing hs e (after_handler run printing h e w)
    | Raised exc => (Raised exc, after_handler run printing h e w)
    end.
Proof.
  simpl. unfold bind, after_handler.
  destruct (attempt run printing h e w) as [[[] | exc] w']; reflexivity.
Qed.

(** A call that passes lets the loop go on. *)
Lemma passes_attempt h e w :
  passes run printing h e (bus w, user w) ->
  fst (attempt run printing h e w) = Returned tt.
Proof.
  intros Hpass. rewrite attempt_eq. cbv zeta.
  destruct (fst (run h e (bus w, user w))) as [[] | exc] eqn:Hr;
    [ reflexivity | ].
  destruct (Hpass exc Hr) as [Hcatch Hprint]. now rewrite Hcatch, Hprint.
Qed.

Lemma after_handler_state h e w :
  (bus (after_handler run printing h e w),
   user (after_handler run printing h e w))
  = snd (handling run printing h e (bus w, user w)).
Proof. apply attempt_handling. Qed.

Lemma invocations_app (l1 l2 : list (Obs Event Handler)) :
  invocations (l1 ++ l2) = invocations l1 ++ invocations l2.
Proof. apply omap_app. Qed.

Lemma after_handler_log h e w :
  exists tail,
    log (after_handler run printing h e w) = log w ++ Invoked h e :: tail /\
    invocations tail = [] /\
    (tail = [] \/
     exists exc, tail = [Printed h exc] /\ is_Exception exc = true /\
                 fst (run h e (bus w, user w)) = Raised exc).
Proof.
  unfold after_handler. rewrite attempt_eq. cbv zeta.
  destruct (run h e (bus w, user w)) as [[[] | exc] [b u]]; simpl.
  - exists []. auto.
  - destruct (is_Exception exc) eqn:Hexc; [ | exists []; auto ].
    destruct (printing h exc (b, u)) as [[[] | exc'] [b' u']]; simpl;
      [ | exists []; auto ].
    exists [Printed h exc]. split; [ reflexivity | split; [ reflexivity | ] ].
    right. eauto.
Qed.

(** A dispatch calls a prefix of the list, in order and with the event it
    was given; the whole list when it returns. *)
Lemma dispatch_trace hs e w :
  exists entries k,
    log (snd (dispatch run printing hs e w)) = log w ++ entries /\
    invocations entries = map (fun h => (h, e)) (take k hs) /\
    (fst (dispatch run printing hs e w) = Returned tt ->
     invocations entries = map (fun h => (h, e)) hs).
Proof.
  revert w. induction hs as [| h hs IH]; intros w.
  - exists [], 0. simpl. rewrite app_nil_r. auto.
  - rewrite dispatch_cons.
    destruct (after_handler_log h e w) as (tail & Hlog & Htail & _).
    destruct (fst (attempt run printing h e w)) as [[] | exc] eqn:Hatt.
    + destruct (IH (after_handler run printing h e w))
        as (entries & k & Hl & Hk & Hall).
      exists (Invoked h e :: tail ++ entries), (S k).
      split; [ | split ].
      * rewrite Hl, Hlog, <- app_assoc. reflexivity.
      * simpl. rewrite invocations_app, Htail, Hk. reflexivity.
      * intros Hr. simpl. rewrite invocations_app, Htail, (Hall Hr).
        reflexivity.
    + exists (Invoked h e :: tail), 1. simpl. rewrite Htail.
      split; [ exact Hlog | split; [ reflexivity | discriminate ] ].
Qed.

(** When every call of a handler of the list passes, the dispatch
    returns. *)
Lemma dispatch_returns hs e w :
  (forall g s, g ∈ hs -> passes run printing g e s) ->
  fst (dispatch run printing hs e w) = Returned tt.
Proof.
  revert w. induction hs as [| h hs IH]; intros w Hpass; [ reflexivity | ].
  rewrite dispatch_cons, passes_attempt
    by (apply Hpass; apply list_elem_of_here).
  apply IH. intros g s Hg. apply Hpass. now apply list_elem_of_further.
Qed.


(** The log of a dispatch that returned: the calls are those of the
    list. *)
Lemma dispatch_returned_log hs e w :
  fst (dispatch run printing hs e w) = Returned tt ->
  exists entries,
    log (snd (dispatch run printing hs e w)) = log w ++ entries /\
    invocations entries = map (fun h => (h, e)) hs.
Proof.
  intros Hr. destruct (dispatch_trace hs e w) as (entries & k & Hl & _ & Hall).
  exists entries. auto.
Qed.



Lemma publish_dispatch e w :
  publish type_of run printing e w
  = dispatch run printing (handlers_of (type_of e) (bus w)) e w.
Proof. reflexivity. Qed.

(** A publish calls registered handlers of the event's type only, with the
    event it was given. *)
Lemma publish_invokes_registered_only e w :
  exists entries,
    log (snd (publish type_of run printing e w)) = log w ++ entries /\
    forall g e', (g, e') ∈ invocations entries ->
                 g ∈ handlers_of (type_of e) (bus w) /\ e' = e.
Proof.
  rewrite publish_dispatch.
  destruct (dispatch_trace (handlers_of (type_of e) (bus w)) e w)
    as (entries & k & Hl & Hk & _).
  exists entries. split; [ exact Hl | ].
  intros g e' Hin. rewrite Hk in Hin.
  apply list_elem_of_fmap in Hin. destruct Hin as (g' & Heq & Hg').
  inversion Heq; subst. split; [ | reflexivity ].
  apply elem_of_take in Hg'. destruct Hg' as (i & Hi & _).
  eapply list_elem_of_lookup_2; eauto.
Qed.




(** Handling a handler leaves no more registrations of [h] for [T] than
    its call left, when printing its diagnostic adds none. *)
Lemma handling_registrations (T : EventType) h g e
    (s : EventBus EventType Handler * U) :
  (forall exc s', occurrences h (handlers_of T (fst (snd (printing g exc s'))))
                  <= occurrences h (handlers_of T (fst s'))) ->
  occurrences h (handlers_of T (fst (snd (handling run printing g e s))))
  <= occurrences h (handlers_of T (fst (snd (run g e s)))).
Proof.
  intros Hprint. unfold handling, try_except_Exception.
  destruct (run g e s) as [[[] | exc] s']; simpl; [ lia | ].
  destruct (is_Exception exc); [ apply Hprint | simpl; lia ].
Qed.

(** While the handlers of [hs] are dispatched, the registrations of [h] for
    [T] go down by at least the number of times [h] occurs in [hs], when
    each call of [h] takes one away, no other handler adds one and no print
    of a diagnostic adds one. *)
Lemma dispatch_registrations (T : EventType) h hs e w :
  (forall s, occurrences h (handlers_of T (fst (snd (run h e s))))
             <= pred (occurrences h (handlers_of T (fst s)))) ->
  (forall g s, g ∈ hs -> g <> h ->
               occurrences h (handlers_of T (fst (snd (run g e s))))
               <= occurrences h (handlers_of T (fst s))) ->
  (forall g exc s, g ∈ hs ->
                   occurrences h (handlers_of T (fst (snd (printing g exc s))))
                   <= occurrences h (handlers_of T (fst s))) ->
  (forall g s, g ∈ hs -> passes run printing g e s) ->
  occurrences h (handlers_of T (bus (snd (dispatch run printing hs e w))))
  <= occurrences h (handlers_of T (bus w)) - occurrences h hs.
Proof.
  intros Hself. revert w.
  induction hs as [| g hs IH]; intros w Hoth Hprint Hpass.
  { cbn [dispatch]. unfold ret. cbn [snd].
    change (occurrences h []) with 0. lia. }
  rewrite dispatch_cons, passes_attempt
    by (apply Hpass; apply list_elem_of_here).
  assert (IH' := IH (after_handler run printing g e w)
                    (fun g' s Hg' => Hoth g' s (list_elem_of_further _ _ _ Hg'))
                    (fun g' exc s Hg' =>
                       Hprint g' exc s (list_elem_of_further _ _ _ Hg'))
                    (fun g' s Hg' => Hpass g' s (list_elem_of_further _ _ _ Hg'))).
  assert (Hbus : bus (after_handler run printing g e w)
                 = fst (snd (handling run printing g e (bus w, user w)))).
  { now rewrite <- after_handler_state. }
  rewrite Hbus in IH'. rewrite occurrences_cons.
  pose proof (handling_registrations T h g e (bus w, user w)
                (fun exc s' => Hprint g exc s' (list_elem_of_here _ _)))
    as Hhandled.
  destruct (decide (g = h)) as [-> | Hne].
  - specialize (Hself (bus w, user w)). simpl in Hself. lia.
  - specialize (Hoth g (bus w, user w) (list_elem_of_here _ _) Hne).
    simpl in Hoth. lia.
Qed.

(** C3 (amended): let [h] be registered for the type [T] of the event [e],
    let every call of [h] with [e] unsubscribe [h] (it leaves one
    registration of [h] for [T] less), let no other handler of the snapshot
    and no print of a diagnostic add a registration of [h], and let every
    call of a handler of the snapshot pass, that is let whatever it raises
    be an [Exception] whose diagnostic is printed without error.  Then the
    publish of [e] returns normally having called every handler of the
    snapshot taken before the dispatch, [h] included, in order; afterwards
    [h] is not registered for [T]; and no later publish of an event of type
    [T], in a world where [h] has not been subscribed again, calls [h]. *)
Theorem self_unsubscribing_handler_runs_once_more :
  forall e h w,
    let T := type_of e in
    let snapshot := handlers_of T (bus w) in
    h ∈ snapshot ->
    (forall s, occurrences h (handlers_of T (fst (snd (run h e s))))
               <= pred (occurrences h (handlers_of T (fst s)))) ->
    (forall g s, g ∈ snapshot -> g <> h ->
                 occurrences h (handlers_of T (fst (snd (run g e s))))
                 <= occurrences h (handlers_of T (fst s))) ->
    (forall g exc s, g ∈ snapshot ->
                     occurrences h (handlers_of T (fst (snd (printing g exc s))))
                     <= occurrences h (handlers_of T (fst s))) ->
    (forall g s, g ∈ snapshot -> passes run printing g e s) ->
    let res := publish type_of run printing e w in
    fst res = Returned tt /\
    (exists entries,
        log (snd res) = log w ++ entries /\
        invocations entries = map (fun g => (g, e)) snapshot) /\
    (h ∉ handlers_of T (bus (snd res))) /\
    (forall e2 w2,
        type_of e2 = T ->
        h ∉ handlers_of T (bus w2) ->
        exists entries2,
          log (snd (publish type_of run printing e2 w2)) = log w2 ++ entries2 /\
          forall e3, (h, e3) ∉ invocations entries2).
Proof.
  intros e h w T snapshot Hin Hself Hoth Hprint Hpass res.
  assert (Hres : fst res = Returned tt).
  { unfold res. rewrite publish_dispatch. now apply dispatch_returns. }
  split; [ exact Hres | split; [ | split ] ].
  - unfold res in *. rewrite publish_dispatch in *.
    now apply dispatch_returned_log.
  - apply occurrences_zero. unfold res. rewrite publish_dispatch.
    pose proof (dispatch_registrations T h snapshot e w Hself Hoth Hprint
                  Hpass) as Hle.
    fold T snapshot in Hle |- *. lia.
  - intros e2 w2 HT Hnin.
    destruct (publish_invokes_registered_only e2 w2) as (entries2 & Hl & Honly).
    exists entries2. split; [ exact Hl | ].
    intros e3 Hcall. apply Honly in Hcall. destruct Hcall as [Hreg _].
    rewrite HT in Hreg. contradiction.
Qed.

End DispatchProperties.

(* ===================================================================== *)
(** * Properties of the singleton                                         *)
(* ===================================================================== *)

Section SingletonProperties.
Context {EventType Handler : Type} `{Countable EventType}
        `{EqDecision Handler}.

Implicit Types (cls : ClassState EventType Handler).

Lemma wf_class_init : wf_class (@ClassState_init EventType Handler _ _).
Proof. intros a Ha. discriminate. Qed.

(** With a bus in place, [instance] returns it and changes nothing. *)
Lemma instance_existing cls a :
  _instance cls = Some a -> instance cls = (Returned (Some a), cls).
Proof.
  intros Ha. unfold instance, bind, get, ret. simpl. rewrite Ha. simpl.
  rewrite Ha. reflexivity.
Qed.

(** Without one, [instance] constructs a bus at the next address. *)
Lemma instance_first cls :
  _instance cls = None ->
  instance cls
  = (Returned (Some (length (objects cls))),
     mkClassState (objects cls ++ [EventBus_init])
                  (Some (length (objects cls)))).
Proof.
  intros Hnone. unfold instance, bind, get, ret, EventBus_new, set_instance.
  simpl. rewrite Hnone. simpl. rewrite Hnone. reflexivity.
Qed.

Lemma instance_wf cls : wf_class cls -> wf_class (snd (instance cls)).
Proof.
  intros Hwf. destruct (_instance cls) as [a |] eqn:Ha.
  - rewrite (instance_existing cls a Ha). exact Hwf.
  - rewrite (instance_first cls Ha). intros a' Ha'. simpl in *.
    inversion Ha'; subst. rewrite length_app. simpl. lia.
Qed.

Lemma reset_wf cls : wf_class (snd (reset cls)).
Proof. intros a Ha. discriminate. Qed.

Lemma on_bus_wf {A} (a : nat) (m : M (EventBus EventType Handler) A) cls :
  wf_class cls -> wf_class (snd (on_bus a m cls)).
Proof.
  intros Hwf. unfold on_bus.
  destruct (objects cls !! a) as [b |]; [ | exact Hwf ].
  destruct (m b) as [[x | exc] b']; intros a' Ha'; simpl in *;
    rewrite length_insert; now apply Hwf.
Qed.

(** C7: after [reset()], the next [instance()] returns a bus that is none of
    the buses constructed before, in particular not the one [_instance]
    referred to before the reset; the registry of the new bus is empty, so
    no handler registered before the reset is registered on it; the new bus
    is the one [_instance] now refers to, and the older buses are as they
    were. *)
Theorem reset_then_instance_gives_new_empty_bus :
  forall cls,
    wf_class cls ->
    let res := instance (snd (reset cls)) in
    exists b : nat,
      fst (reset cls) = Returned tt /\
      fst res = Returned (Some b) /\
      (forall old, _instance cls = Some old -> b <> old) /\
      objects cls !! b = None /\
      (exists new_bus, objects (snd res) !! b = Some new_bus /\
                       _subscribers new_bus = ∅ /\
                       forall T, handlers_of T new_bus = []) /\
      _instance (snd res) = Some b /\
      (forall a, a < length (objects cls) ->
                 objects (snd res) !! a = objects cls !! a) /\
      wf_class (snd res).
Proof.
  intros cls Hwf res.
  assert (Hres : res = (Returned (Some (length (objects cls))),
                        mkClassState (objects cls ++ [EventBus_init])
                                     (Some (length (objects cls))))).
  { unfold res. rewrite instance_first by reflexivity. reflexivity. }
  exists (length (objects cls)). rewrite Hres. simpl.
  split; [ reflexivity | ].
  split; [ reflexivity | ].
  split; [ intros old Hold; apply Hwf in Hold; lia | ].
  split; [ apply lookup_ge_None; lia | ].
  split.
  { exists EventBus_init. split; [ | split ].
    - rewrite lookup_app_r by lia. rewrite Nat.sub_diag. reflexivity.
    - reflexivity.
    - intros T. reflexivity. }
  split; [ reflexivity | ].
  split; [ intros a Ha; now rewrite lookup_app_l by lia | ].
  intros a Ha. simpl in *. inversion Ha; subst. rewrite length_app. simpl. lia.
Qed.

End SingletonProperties.

(* ===================================================================== *)
(** * Properties of the class statement and of the top level              *)
(* ===================================================================== *)

(** Case analysis on what the library calls of a body return. *)
Ltac case_calls :=
  repeat match goal with
         | |- context [match ?x with _ => _ end] =>
             lazymatch x with
             | context [match _ with _ => _ end] => fail
             | _ => destruct x eqn:?; simpl
             end
         end.

(** Whatever the library does, the class body binds no other names than
    these. *)
Lemma EventBus_body_names (env : PyEnv) (globals : Namespace) (name : string) :
  name ∉ ["__module__"; "__qualname__"; "__annotations__"; "_instance";
          "_lock"; "__init__"] ->
  snd (EventBus_body env globals ∅) !! name = None.
Proof.
  intros Hname. rewrite !not_elem_of_cons in Hname.
  destruct Hname as (H1 & H2 & H3 & H4 & H5 & H6 & _).
  unfold EventBus_body, EventBus_line55, EventBus_line56, EventBus_line58,
    bind, store, lookup_name, lift. simpl.
  case_calls; rewrite ?lookup_insert_ne by congruence; apply lookup_empty.
Qed.

(** Whatever the library does, [__init__] sets no other attributes of the
    object than these. *)
Lemma EventBus_call_names (env : PyEnv) (globals : Namespace) (name : string) :
  name ∉ ["_subscribers"; "_sub_lock"] ->
  snd (EventBus_call env globals) !! name = None.
Proof.
  intros Hname. rewrite !not_elem_of_cons in Hname.
  destruct Hname as (H1 & H2 & _).
  unfold EventBus_call, EventBus___init__, threading_Lock, setattr_self,
    def_local, load_global, bind, lift, new_frame. simpl.
  case_calls; rewrite ?lookup_insert_ne by congruence; apply lookup_empty.
Qed.

(** When [__init__] returns, the five functions are local variables of its
    frame. *)
Lemma EventBus_init_locals (env : PyEnv) (globals : Namespace) (name : string) :
  fst (EventBus___init__ env globals new_frame) = Returned tt ->
  name ∈ bus_operations ->
  is_Some (locals (snd (EventBus___init__ env globals new_frame)) !! name).
Proof.
  unfold EventBus___init__, threading_Lock, setattr_self,
    def_local, load_global, bind, lift, new_frame, bus_operations. simpl.
  case_calls; try discriminate.
  intros _ Hname. rewrite !elem_of_cons in Hname.
  destruct Hname as [-> | [-> | [-> | [-> | [-> | Hnil]]]]];
    [ .. | now apply elem_of_nil in Hnil ];
    eexists; vm_compute; reflexivity.
Qed.

Lemma getattr_class_unbound (cls_ns : Namespace) (name : string) :
  cls_ns !! name = None ->
  name ∉ object_attrs ++ type_attrs ->
  getattr_class "EventBus" cls_ns name = Raised (AttributeError "EventBus" name).
Proof.
  intros Hns Hattr. unfold getattr_class. rewrite Hns.
  destruct (decide (name ∈ object_attrs ++ type_attrs)); [ contradiction | reflexivity ].
Qed.

Lemma getattr_instance_unbound (cls_ns obj : Namespace) (name : string) :
  obj !! name = None ->
  cls_ns !! name = None ->
  name ∉ object_attrs ->
  getattr_instance "EventBus" cls_ns obj name
  = Raised (AttributeError "EventBus" name).
Proof.
  intros Hobj Hns Hattr. unfold getattr_instance. rewrite Hobj, Hns.
  destruct (decide (name ∈ object_attrs)); [ contradiction | reflexivity ].
Qed.

(** Membership in a list of string literals, decided by evaluation. *)
Ltac not_in_literals := apply (bool_decide_unpack _); vm_compute; exact I.

(** C4: none of [instance], [reset], [subscribe], [unsubscribe] and
    [publish] is an attribute of the class [EventBus] or of an object
    [__init__] has initialised: the five [def] statements are in the body of
    [__init__], so the names are local variables of its frame, which is gone
    when [__init__] returns; the class body and the object's [__dict__] do
    not bind them, whatever the library calls of the file do, and
    [getattr] on the class and on the object raises [AttributeError]. *)
Theorem EventBus_operations_are_not_attributes :
  forall (env : PyEnv) (globals : Namespace),
    let cls_ns := snd (EventBus_body env globals ∅) in
    let init := EventBus___init__ env globals new_frame in
    let obj := snd (EventBus_call env globals) in
    Forall (fun name =>
              (fst init = Returned tt -> is_Some (locals (snd init) !! name)) /\
              obj !! name = None /\
              cls_ns !! name = None /\
              getattr_class "EventBus" cls_ns name
              = Raised (AttributeError "EventBus" name) /\
              getattr_instance "EventBus" cls_ns obj name
              = Raised (AttributeError "EventBus" name))
           bus_operations
    /\ fst (EventBus___init__ cpython events_globals new_frame) = Returned tt.
Proof.
  intros env globals cls_ns init obj.
  split; [ | vm_compute; reflexivity ].
  apply list.Forall_forall. intros name Hname.
  assert (Hobj : obj !! name = None).
  { apply EventBus_call_names. unfold bus_operations in Hname.
    rewrite !elem_of_cons in Hname.
    destruct Hname as [-> | [-> | [-> | [-> | [-> | Hnil]]]]];
      [ .. | now apply elem_of_nil in Hnil ]; not_in_literals. }
  assert (Hcls : cls_ns !! name = None).
  { apply EventBus_body_names. unfold bus_operations in Hname.
    rewrite !elem_of_cons in Hname.
    destruct Hname as [-> | [-> | [-> | [-> | [-> | Hnil]]]]];
      [ .. | now apply elem_of_nil in Hnil ]; not_in_literals. }
  assert (Hbuiltin : name ∉ object_attrs ++ type_attrs).
  { unfold bus_operations in Hname. rewrite !elem_of_cons in Hname.
    destruct Hname as [-> | [-> | [-> | [-> | [-> | Hnil]]]]];
      [ .. | now apply elem_of_nil in Hnil ]; not_in_literals. }
  split; [ intros Hret; now apply EventBus_init_locals | ].
  split; [ exact Hobj | split; [ exact Hcls | split ] ].
  - now apply getattr_class_unbound.
  - apply getattr_instance_unbound; auto.
    intros Hin. apply Hbuiltin. apply elem_of_app. now left.
Qed.

(** C5: evaluating the body of [class EventBus] raises.  Line 56 is a
    chained assignment: [threading.Lock()] is evaluated and bound to
    [_lock], then the second target, a subscription of [ClassVar], needs
    [threading.lock], which the module does not have: [AttributeError]
    (and [ClassVar] accepts no item assignment either).  [__init__] is
    never bound; loading [events.py] raises whatever the import of line 7
    does, and the name [EventBus] is never bound. *)
Theorem EventBus_class_body_raises :
  let res := EventBus_body cpython events_globals ∅ in
  fst res = Raised (AttributeError "threading" "lock") /\
  snd res !! "_instance" = Some ObjNone /\
  snd res !! "_lock" = Some ObjLock /\
  snd res !! "__init__" = None /\
  ("lock" ∉ threading_public_names) /\
  (forall k v, returns (cpython_setitem (ObjSpecialForm "ClassVar") k v) = false) /\
  (forall import_models : Res (PyObj * PyObj),
      returns (import_module (events_toplevel cpython import_models)) = false /\
      snd (events_toplevel cpython import_models ∅) !! "EventBus" = None /\
      (returns import_models = true ->
       import_module (events_toplevel cpython import_models)
       = Raised (AttributeError "threading" "lock"))).
Proof.
  split; [ vm_compute; reflexivity | ].
  split; [ vm_compute; reflexivity | ].
  split; [ vm_compute; reflexivity | ].
  split; [ vm_compute; reflexivity | ].
  split; [ not_in_literals | ].
  split; [ reflexivity | ].
  intros [[t p] | exc].
  - repeat split; vm_compute; reflexivity.
  - repeat split; try (vm_compute; reflexivity). discriminate.
Qed.

(* ===================================================================== *)
(** * The application: the properties at work                             *)
(* ===================================================================== *)

Abbreviation demo_publish := (publish type_of_event demo_run demo_printing).

(** A handler of the application that is not among those subscribed. *)
Ltac not_subscribed Hg :=
  exfalso; revert Hg; apply (bool_decide_unpack _); vm_compute; exact I.

(** The scenario of the specification: A and B subscribe, in that order, to
    [RefreshCompletedEvent]; the event is published; A is unsubscribed; the
    event is published again. *)
Example refresh_completed_scenario :
  let w1 := demo_subscribed RefreshCompletedEvent_t [PanelA; PanelB] in
  let w2 := snd (demo_publish refresh_completed w1) in
  let w3 := snd (call_bus (unsubscribe RefreshCompletedEvent_t PanelA) w2) in
  let w4 := snd (demo_publish refresh_completed w3) in
  invocations (log w2)
  = [(PanelA, refresh_completed); (PanelB, refresh_completed)] /\
  invocations (log w4)
  = invocations (log w2) ++ [(PanelB, refresh_completed)].
Proof. split; vm_compute; reflexivity. Qed.



(** C3, as stated, fails: [Quitter] unsubscribes itself while it is called
    and then raises [SystemExit]; [PanelB], which was in the snapshot taken
    before the dispatch, is not called by that publish. *)
Example self_unsubscribing_handler_can_end_the_dispatch :
  let w1 := demo_subscribed TickerRemovedEvent_t [Quitter; PanelB] in
  let res := demo_publish ticker_removed w1 in
  handlers_of TickerRemovedEvent_t (bus w1) = [Quitter; PanelB] /\
  handlers_of TickerRemovedEvent_t (bus (snd res)) = [PanelB] /\
  invocations (log (snd res)) = [(Quitter, ticker_removed)] /\
  ~ ((PanelB, ticker_removed) ∈ invocations (log (snd res))).
Proof.
  repeat split; try (vm_compute; reflexivity).
  intros Hin. vm_compute in Hin.
  apply elem_of_cons in Hin. destruct Hin as [Heq | Hin]; [ discriminate | ].
  now apply elem_of_nil in Hin.
Qed.


(** In that scenario the log of the publish: the call of [Faulty], the
    diagnostic, the call of [PanelB]. *)
Example fetch_failed_scenario :
  let w := demo_subscribed FetchFailedEvent_t [Faulty; PanelB] in
  let res := demo_publish fetch_failed w in
  fst res = Returned tt /\
  log (snd res)
  = [ Invoked Faulty fetch_failed;
      Printed Faulty (RuntimeError "HTTP 500");
      Invoked PanelB fetch_failed ].
Proof. split; vm_compute; reflexivity. Qed.

(** A diagnostic that cannot be printed: [Garbled] raises an [Exception],
    the publish catches it, the print of the diagnostic raises, and the
    publish raises that error to its caller without calling [PanelB]. *)
Example publish_raises_when_the_diagnostic_cannot_be_printed :
  let w := demo_subscribed FetchFailedEvent_t [Garbled; PanelB] in
  let res := demo_publish fetch_failed w in
  fst res = Raised ValueError /\
  log (snd res) = [Invoked Garbled fetch_failed].
Proof. split; vm_compute; reflexivity. Qed.

Lemma demo_run_OneShot (e : DomainEvent) (b : DemoBus) (n : nat) :
  demo_run OneShot e (b, n)
  = (Returned tt, (snd (unsubscribe (type_of_event e) OneShot b), n)).
Proof.
  simpl. pose proof (unsubscribe_returns (type_of_event e) OneShot b) as Hr.
  destruct (unsubscribe (type_of_event e) OneShot b) as [r b'].
  simpl in *. now rewrite Hr.
Qed.

Lemma self_unsubscribing_handler_runs_once_more_witness :
  let e := ticker_removed in
  let w := demo_subscribed TickerRemovedEvent_t [PanelA; OneShot; PanelB] in
  let T := type_of_event e in
  let snapshot := handlers_of T (bus w) in
  let res := demo_publish e w in
  fst res = Returned tt /\
  (exists entries,
      log (snd res) = log w ++ entries /\
      invocations entries = map (fun g => (g, e)) snapshot) /\
  (OneShot ∉ handlers_of T (bus (snd res))) /\
  (forall e2 (w2 : DemoWorld),
      type_of_event e2 = T ->
      OneShot ∉ handlers_of T (bus w2) ->
      exists entries2,
        log (snd (demo_publish e2 w2)) = log w2 ++ entries2 /\
        forall e3, (OneShot, e3) ∉ invocations entries2).
Proof.
  apply (self_unsubscribing_handler_runs_once_more
           type_of_event demo_run demo_printing ticker_removed OneShot
           (demo_subscribed TickerRemovedEvent_t [PanelA; OneShot; PanelB])).
  - apply (bool_decide_unpack _). vm_compute. exact I.
  - intros [b n]. rewrite demo_run_OneShot. simpl fst. simpl snd.
    rewrite unsubscribe_occurrences. exact (le_n _).
  - intros g [b n] Hg Hne.
    destruct g; try reflexivity; try contradiction; exfalso;
      revert Hg; apply (bool_decide_unpack _); vm_compute; exact I.
  - intros g exc s Hg. destruct g; exact (le_n _).
  - intros g [b n] Hg exc Hexc.
    destruct g; try (rewrite demo_run_OneShot in Hexc);
      simpl in Hexc; try discriminate Hexc; not_subscribed Hg.
Defined.

Lemma unsubscribe_unregistered_is_noop_witness :
  let b := bus (demo_subscribed RefreshCompletedEvent_t [PanelA]) in
  unsubscribe RefreshCompletedEvent_t PanelB b = (Returned tt, b) /\
  unsubscribe FetchFailedEvent_t PanelA b = (Returned tt, b).
Proof.
  split.
  - apply (unsubscribe_unregistered_is_noop RefreshCompletedEvent_t PanelB).
    left. apply (bool_decide_unpack _). vm_compute. exact I.
  - apply (unsubscribe_unregistered_is_noop FetchFailedEvent_t PanelA).
    right. vm_compute. reflexivity.
Defined.

Lemma reset_then_instance_gives_new_empty_bus_witness :
  let cls := demo_class in
  let res := instance (snd (reset cls)) in
  exists b : nat,
    fst (reset cls) = Returned tt /\
    fst res = Returned (Some b) /\
    (forall old, _instance cls = Some old -> b <> old) /\
    objects cls !! b = None /\
    (exists new_bus, objects (snd res) !! b = Some new_bus /\
                     _subscribers new_bus = ∅ /\
                     forall T, handlers_of T new_bus = []) /\
    _instance (snd res) = Some b /\
    (forall a, a < length (objects cls) ->
               objects (snd res) !! a = objects cls !! a) /\
    wf_class (snd res).
Proof.
  apply (reset_then_instance_gives_new_empty_bus demo_class).
  intros a Ha. vm_compute in Ha. inversion Ha. vm_compute. lia.
Defined.

(* ===================================================================== *)
(** * Further properties of the registry                                  *)
(* ===================================================================== *)

Section RegistryFurther.
Context {EventType Handler : Type} `{Countable EventType}
        `{EqDecision Handler}.

Implicit Types (T : EventType) (h g : Handler) (l : list Handler)
         (b : EventBus EventType Handler).

Lemma occurrences_app (x : Handler) l1 l2 :
  occurrences x (l1 ++ l2) = occurrences x l1 + occurrences x l2.
Proof. unfold occurrences. rewrite list.filter_app. apply List.length_app. Qed.

Lemma occurrences_here (x : Handler) : occurrences x [x] = 1.
Proof. rewrite occurrences_cons, decide_True by reflexivity. reflexivity. Qed.

(** [l.remove(x)] takes the first [x] away and keeps the order of the
    rest. *)
Lemma list_remove_split (x : Handler) l :
  x ∈ l ->
  exists l1 l2, l = l1 ++ x :: l2 /\ (x ∉ l1) /\
                list_remove x l = Returned (l1 ++ l2).
Proof.
  induction l as [| y l IH]; intros Hin.
  - now apply elem_of_nil in Hin.
  - simpl. destruct (decide (y = x)) as [-> | Hne].
    + exists [], l. split; [ reflexivity | split; [ apply not_elem_of_nil | reflexivity ] ].
    + apply elem_of_cons in Hin. destruct Hin as [-> | Hin]; [ congruence | ].
      destruct (IH Hin) as (l1 & l2 & -> & Hnin & Hrm). rewrite Hrm.
      exists (y :: l1), l2. split; [ reflexivity | split; [ | reflexivity ] ].
      apply not_elem_of_cons. split; [ congruence | exact Hnin ].
Qed.

Lemma unsubscribe_present T h b l' :
  h ∈ handlers_of T b ->
  list_remove h (handlers_of T b) = Returned l' ->
  unsubscribe T h b = (Returned tt, mkBus (<[T := l']> (_subscribers b))).
Proof.
  intros Hin Hrm. unfold unsubscribe, bind, get, list_contains, lift, put.
  simpl. fold (handlers_of T b).
  rewrite bool_decide_eq_true_2 by exact Hin. rewrite Hrm. reflexivity.
Qed.

Lemma handlers_of_insert_eq T l b :
  handlers_of T (mkBus (<[T := l]> (_subscribers b))) = l.
Proof. unfold handlers_of, dict_get. simpl. now rewrite lookup_insert_eq. Qed.

Lemma handlers_of_insert_ne T T' l b :
  T <> T' ->
  handlers_of T' (mkBus (<[T := l]> (_subscribers b))) = handlers_of T' b.
Proof.
  intros Hne. unfold handlers_of, dict_get. simpl.
  now rewrite lookup_insert_ne by exact Hne.
Qed.

(** X1: [subscribe] never raises (the [KeyError] of the subscript is
    excluded by the test before it); afterwards the event type is a key of
    the registry, the handler is the last of the handlers of that type, the
    handlers registered before are in front of it in their order, and the
    lists of the other event types are as they were. *)
Theorem subscribe_registers_last :
  forall T h b,
    let b' := snd (subscribe T h b) in
    fst (subscribe T h b) = Returned tt /\
    _subscribers b' !! T = Some (handlers_of T b ++ [h]) /\
    handlers_of T b' = handlers_of T b ++ [h] /\
    (forall T', T <> T' -> _subscribers b' !! T' = _subscribers b !! T') /\
    (forall T', T <> T' -> handlers_of T' b' = handlers_of T' b).
Proof.
  intros T h b b'. unfold b'. rewrite subscribe_spec. simpl.
  split; [ reflexivity | ].
  split; [ apply lookup_insert_eq | ].
  split; [ apply handlers_of_insert_eq | ].
  split; intros T' Hne.
  - now apply lookup_insert_ne.
  - now apply handlers_of_insert_ne.
Qed.

(** X3: [unsubscribe] of a registered handler removes its first
    registration for the event type and nothing else: the handlers before
    it and after it keep their order, later registrations of the same
    handler stay, and the other event types are untouched. *)
Theorem unsubscribe_removes_first_registration :
  forall T h b,
    h ∈ handlers_of T b ->
    exists l1 l2,
      handlers_of T b = l1 ++ h :: l2 /\
      (h ∉ l1) /\
      fst (unsubscribe T h b) = Returned tt /\
      handlers_of T (snd (unsubscribe T h b)) = l1 ++ l2 /\
      (forall T', T <> T' ->
         _subscribers (snd (unsubscribe T h b)) !! T' = _subscribers b !! T').
Proof.
  intros T h b Hin.
  destruct (list_remove_split h _ Hin) as (l1 & l2 & Hl & Hnin & Hrm).
  exists l1, l2. rewrite (unsubscribe_present T h b _ Hin Hrm). simpl.
  split; [ exact Hl | split; [ exact Hnin | split; [ reflexivity | split ] ] ].
  - apply handlers_of_insert_eq.
  - intros T' Hne. now apply lookup_insert_ne.
Qed.

(** X4: [unsubscribe] never raises (the [ValueError] of [remove] is
    excluded by the test before it); it takes away one registration of
    the handler for the event type when there is one, and leaves the
    registrations of every other handler and the lists of every other event
    type as they were. *)
Theorem unsubscribe_touches_one_registration :
  forall T h b,
    let b' := snd (unsubscribe T h b) in
    fst (unsubscribe T h b) = Returned tt /\
    occurrences h (handlers_of T b') = pred (occurrences h (handlers_of T b)) /\
    (forall g, g <> h ->
       occurrences g (handlers_of T b') = occurrences g (handlers_of T b)) /\
    (forall T', T <> T' -> handlers_of T' b' = handlers_of T' b).
Proof.
  intros T h b b'. unfold b'.
  split; [ apply unsubscribe_returns | ].
  split; [ apply unsubscribe_occurrences | ].
  destruct (decide (h ∈ handlers_of T b)) as [Hin | Hnin].
  - destruct (list_remove_elem h _ Hin) as (l' & Hrm & _ & Hoth).
    rewrite (unsubscribe_present T h b _ Hin Hrm). simpl. split.
    + intros g Hg. rewrite handlers_of_insert_eq. now apply Hoth.
    + intros T' Hne. now apply handlers_of_insert_ne.
  - rewrite unsubscribe_absent by exact Hnin. simpl. auto.
Qed.

Lemma list_remove_last (x : Handler) l :
  x ∉ l -> list_remove x (l ++ [x]) = Returned l.
Proof.
  induction l as [| y l IH]; intros Hnin; simpl.
  - now rewrite decide_True.
  - apply not_elem_of_cons in Hnin. destruct Hnin as [Hne Hnin].
    rewrite decide_False by congruence. now rewrite (IH Hnin).
Qed.

(** X5: subscribing a handler that is not registered for the event type
    and unsubscribing it again gives every event type the handlers it had;
    the bus is the one before when the event type was a key of the
    registry, and otherwise differs from it by the key, now mapped to an
    empty list. *)
Theorem subscribe_then_unsubscribe_restores_handlers :
  forall T h b,
    h ∉ handlers_of T b ->
    let b1 := snd (subscribe T h b) in
    let b2 := snd (unsubscribe T h b1) in
    fst (unsubscribe T h b1) = Returned tt /\
    (forall T', handlers_of T' b2 = handlers_of T' b) /\
    _subscribers b2 = <[T := handlers_of T b]> (_subscribers b) /\
    (is_Some (_subscribers b !! T) -> b2 = b) /\
    (_subscribers b !! T = None -> _subscribers b2 !! T = Some []).
Proof.
  intros T h b Hnin b1 b2.
  assert (Hb1 : b1 = mkBus (<[T := handlers_of T b ++ [h]]> (_subscribers b))).
  { unfold b1. now rewrite subscribe_spec. }
  assert (Hin1 : h ∈ handlers_of T b1).
  { rewrite Hb1, handlers_of_insert_eq. apply elem_of_app. right.
    apply list_elem_of_here. }
  assert (Hrm : list_remove h (handlers_of T b1) = Returned (handlers_of T b)).
  { rewrite Hb1, handlers_of_insert_eq. now apply list_remove_last. }
  assert (Hb2 : unsubscribe T h b1
                = (Returned tt, mkBus (<[T := handlers_of T b]> (_subscribers b)))).
  { rewrite (unsubscribe_present T h b1 _ Hin1 Hrm). rewrite Hb1. simpl.
    now rewrite insert_insert_eq. }
  unfold b2. rewrite Hb2. simpl.
  split; [ reflexivity | split; [ | split; [ reflexivity | split ] ] ].
  - intros T'. destruct (decide (T = T')) as [<- | Hne].
    + apply handlers_of_insert_eq.
    + now apply handlers_of_insert_ne.
  - intros [l Hl]. destruct b as [subs]. simpl in *. f_equal.
    apply insert_id. unfold handlers_of, dict_get. simpl. now rewrite Hl.
  - intros Hnone. rewrite lookup_insert_eq. unfold handlers_of, dict_get.
    now rewrite Hnone.
Qed.

(** X6: the registry never loses a key: an event type that is a key stays
    one through [subscribe] and through [unsubscribe], also when its last
    handler is unsubscribed, which leaves an empty list behind. *)
Theorem registry_keys_are_never_deleted :
  forall T h b T',
    (is_Some (_subscribers b !! T') ->
     is_Some (_subscribers (snd (subscribe T h b)) !! T') /\
     is_Some (_subscribers (snd (unsubscribe T h b)) !! T')) /\
    (handlers_of T b = [h] ->
     _subscribers (snd (unsubscribe T h b)) !! T = Some []).
Proof.
  intros T h b T'. split.
  - intros Hkey. split.
    + rewrite subscribe_spec. simpl.
      destruct (decide (T = T')) as [<- | Hne].
      * rewrite lookup_insert_eq. eauto.
      * now rewrite lookup_insert_ne.
    + destruct (decide (h ∈ handlers_of T b)) as [Hin | Hnin].
      * destruct (list_remove_elem h _ Hin) as (l' & Hrm & _).
        rewrite (unsubscribe_present T h b _ Hin Hrm). simpl.
        destruct (decide (T = T')) as [<- | Hne].
        -- rewrite lookup_insert_eq. eauto.
        -- now rewrite lookup_insert_ne.
      * now rewrite unsubscribe_absent.
  - intros Hone.
    assert (Hin : h ∈ handlers_of T b) by (rewrite Hone; apply list_elem_of_here).
    assert (Hrm : list_remove h (handlers_of T b) = Returned []).
    { rewrite Hone. simpl. now rewrite decide_True. }
    rewrite (unsubscribe_present T h b _ Hin Hrm). simpl.
    apply lookup_insert_eq.
Qed.

End RegistryFurther.

(* ===================================================================== *)
(** * Further properties of the dispatch                                  *)
(* ===================================================================== *)

Section DispatchFurther.
Context {Event EventType Handler U : Type} `{Countable EventType}
        `{EqDecision Handler}.
Variable type_of : Event -> EventType.
Variable run : Handler -> Event -> M (EventBus EventType Handler * U) unit.
Variable printing : Handler -> PyExc ->
                    M (EventBus EventType Handler * U) unit.

Local Abbreviation W := (World Event EventType Handler U).
Implicit Types (e : Event) (h g : Handler) (hs : list Handler) (w : W).

Lemma diagnostics_app (l1 l2 : list (Obs Event Handler)) :
  diagnostics (l1 ++ l2) = diagnostics l1 ++ diagnostics l2.
Proof. apply omap_app. Qed.

(** X2: the registry does not deduplicate.  Subscribing a handler adds a
    registration also when it is registered already, and a publish in which
    every call passes (whatever a handler raises is an [Exception] whose
    diagnostic is printed without error) calls every handler as many times
    as it is registered for the type of the event. *)
Theorem publish_calls_once_per_registration :
  forall e w h,
    let T := type_of e in
    (forall b : EventBus EventType Handler,
        occurrences h (handlers_of T (snd (subscribe T h b)))
        = S (occurrences h (handlers_of T b))) /\
    ((forall g s, g ∈ handlers_of T (bus w) -> passes run printing g e s) ->
     exists entries,
       log (snd (publish type_of run printing e w)) = log w ++ entries /\
       occurrences h (map fst (invocations entries))
       = occurrences h (handlers_of T (bus w))).
Proof.
  intros e w h T. split.
  - intros b. rewrite handlers_of_subscribe_eq, occurrences_app,
      occurrences_here. lia.
  - intros Hpass. rewrite publish_dispatch. fold T.
    destruct (dispatch_returned_log run printing (handlers_of T (bus w)) e w)
      as (entries & Hl & Hall);
      [ now apply dispatch_returns | ].
    exists entries. split; [ exact Hl | ].
    rewrite Hall, map_map. simpl. now rewrite map_id.
Qed.

(** X7: publishing an event for whose type no handler is registered, the
    type being no key of the registry or the key of an empty list, is no
    error and does nothing: the publish returns and the world is the one
    before. *)
Theorem publish_without_handlers_does_nothing :
  forall e w,
    _subscribers (bus w) !! type_of e = None \/
    _subscribers (bus w) !! type_of e = Some [] ->
    publish type_of run printing e w = (Returned tt, w).
Proof.
  intros e w Hkey. rewrite publish_dispatch.
  assert (Hnil : handlers_of (type_of e) (bus w) = []).
  { unfold handlers_of, dict_get. destruct Hkey as [-> | ->]; reflexivity. }
  rewrite Hnil. reflexivity.
Qed.

Lemma dispatch_all_return hs e w :
  (forall g s, g ∈ hs -> fst (run g e s) = Returned tt) ->
  fst (dispatch run printing hs e w) = Returned tt /\
  log (snd (dispatch run printing hs e w))
  = log w ++ map (fun g => Invoked g e) hs.
Proof.
  revert w. induction hs as [| h hs IH]; intros w Hret.
  - simpl. now rewrite app_nil_r.
  - assert (Hatt : attempt run printing h e w
                   = (Returned tt,
                      mkWorld (fst (snd (run h e (bus w, user w))))
                              (snd (snd (run h e (bus w, user w))))
                              (log w ++ [Invoked h e]))).
    { rewrite attempt_eq. cbv zeta.
      now rewrite (Hret h (bus w, user w) (list_elem_of_here _ _)). }
    rewrite dispatch_cons. unfold after_handler. rewrite Hatt. simpl.
    match goal with
    | |- context [dispatch run printing hs e ?w'] =>
        destruct (IH w' (fun g s Hg => Hret g s (list_elem_of_further _ _ _ Hg)))
          as (Hr & Hl)
    end.
    split; [ exact Hr | ]. rewrite Hl. simpl. rewrite <- app_assoc.
    reflexivity.
Qed.

(** X8: when every registered handler returns, a publish prints nothing:
    what it does is the calls of the registered handlers, in order, each
    with the event, and it returns. *)
Theorem publish_prints_nothing_when_handlers_return :
  forall e w,
    (forall g s, g ∈ handlers_of (type_of e) (bus w) ->
                 fst (run g e s) = Returned tt) ->
    fst (publish type_of run printing e w) = Returned tt /\
    log (snd (publish type_of run printing e w))
    = log w ++ map (fun g => Invoked g e) (handlers_of (type_of e) (bus w)).
Proof.
  intros e w Hret. rewrite publish_dispatch.
  now apply dispatch_all_return.
Qed.

Lemma dispatch_effects hs e w :
  (forall g s, g ∈ hs -> passes run printing g e s) ->
  (bus (snd (dispatch run printing hs e w)),
   user (snd (dispatch run printing hs e w)))
  = effects_in_order run printing e hs (bus w, user w).
Proof.
  revert w. induction hs as [| h hs IH]; intros w Hpass; [ reflexivity | ].
  rewrite dispatch_cons, passes_attempt
    by (apply Hpass; apply list_elem_of_here).
  rewrite IH by (intros g s Hg; apply Hpass; now apply list_elem_of_further).
  rewrite after_handler_state. reflexivity.
Qed.

(** X9: a publish in which every call passes (whatever a handler raises is
    an [Exception] whose diagnostic is printed without error) leaves the
    bus and the application state that handling the registered handlers
    produces, one after the other in the order of their subscription, each
    on what the one before left: the call of the handler and, when it
    raised, the print of its diagnostic on what the call left.  What a
    handler changed before it raised stays: the publish undoes nothing. *)
Theorem publish_applies_handler_effects_in_order :
  forall e w,
    (forall g s, g ∈ handlers_of (type_of e) (bus w) ->
                 passes run printing g e s) ->
    let w' := snd (publish type_of run printing e w) in
    (bus w', user w')
    = effects_in_order run printing e (handlers_of (type_of e) (bus w))
                       (bus w, user w).
Proof.
  intros e w Hpass w'. unfold w'. rewrite publish_dispatch.
  now apply dispatch_effects.
Qed.

Lemma dispatch_diagnostics hs e w :
  exists entries,
    log (snd (dispatch run printing hs e w)) = log w ++ entries /\
    length (diagnostics entries) <= length (invocations entries) /\
    forall h exc,
      Printed h exc ∈ entries ->
      h ∈ hs /\ is_Exception exc = true /\
      exists l1 l2, entries = l1 ++ Invoked h e :: Printed h exc :: l2.
Proof.
  revert w. induction hs as [| h hs IH]; intros w.
  - exists []. simpl. rewrite app_nil_r.
    split; [ reflexivity | split; [ reflexivity | ] ].
    intros h exc Hin. now apply elem_of_nil in Hin.
  - rewrite dispatch_cons.
    destruct (after_handler_log run printing h e w)
      as (tail & Hlog & _ & Htail).
    assert (Hhere : forall h' exc rest,
               Printed h' exc ∈ Invoked h e :: tail ->
               h' = h /\ is_Exception exc = true /\
               Invoked h e :: tail ++ rest
               = [] ++ Invoked h' e :: Printed h' exc :: rest).
    { intros h' exc rest Hin. apply elem_of_cons in Hin.
      destruct Hin as [Heq | Hin]; [ discriminate | ].
      destruct Htail as [-> | (exc' & -> & Hexc' & _)].
      - now apply elem_of_nil in Hin.
      - apply list_elem_of_singleton in Hin. inversion Hin; subst. auto. }
    destruct (fst (attempt run printing h e w)) as [[] | exc0].
    + destruct (IH (after_handler run printing h e w))
        as (entries & Hl & Hlen & Hpr).
      exists (Invoked h e :: tail ++ entries). split; [ | split ].
      * rewrite Hl, Hlog, <- app_assoc. reflexivity.
      * simpl. rewrite diagnostics_app, invocations_app, !length_app.
        destruct Htail as [-> | (exc' & -> & _)]; simpl; lia.
      * intros h' exc Hin. rewrite app_comm_cons in Hin.
        apply elem_of_app in Hin. destruct Hin as [Hin | Hin].
        -- destruct (Hhere h' exc entries Hin) as (-> & Hexc & Heq).
           split; [ apply list_elem_of_here | split; [ exact Hexc | ] ].
           exists [], entries. exact Heq.
        -- destruct (Hpr h' exc Hin) as (Hh' & Hexc & l1 & l2 & ->).
           split; [ now apply list_elem_of_further | split; [ exact Hexc | ] ].
           exists (Invoked h e :: tail ++ l1), l2.
           simpl. rewrite <- app_assoc. reflexivity.
    + exists (Invoked h e :: tail). simpl. split; [ exact Hlog | split ].
      * destruct Htail as [-> | (exc' & -> & _)]; simpl; lia.
      * intros h' exc Hin.
        destruct (Hhere h' exc [] Hin) as (-> & Hexc & Heq).
        split; [ apply list_elem_of_here | split; [ exact Hexc | ] ].
        exists [], []. rewrite app_nil_r in Heq. exact Heq.
Qed.

(** X10: a publish prints a diagnostic only for a handler registered for
    the type of the event, only for an exception that is an [Exception],
    and only right after the call of that handler with the event; it never
    prints more diagnostics than it made calls. *)
Theorem publish_prints_only_caught_exceptions :
  forall e w,
    exists entries,
      log (snd (publish type_of run printing e w)) = log w ++ entries /\
      length (diagnostics entries) <= length (invocations entries) /\
      forall h exc,
        Printed h exc ∈ entries ->
        h ∈ handlers_of (type_of e) (bus w) /\
        is_Exception exc = true /\
        exists l1 l2, entries = l1 ++ Invoked h e :: Printed h exc :: l2.
Proof.
  intros e w. rewrite publish_dispatch. apply dispatch_diagnostics.
Qed.

(** What the body of the loop raises comes from the handler or from the
    print of its diagnostic, and nothing is on the log after the call. *)
Lemma attempt_raise h e w exc :
  fst (attempt run printing h e w) = Raised exc ->
  ((fst (run h e (bus w, user w)) = Raised exc /\ is_Exception exc = false) \/
   (exists exc0,
       fst (run h e (bus w, user w)) = Raised exc0 /\
       is_Exception exc0 = true /\
       fst (printing h exc0 (snd (run h e (bus w, user w)))) = Raised exc)) /\
  log (after_handler run printing h e w) = log w ++ [Invoked h e].
Proof.
  unfold after_handler. rewrite attempt_eq. cbv zeta.
  destruct (fst (run h e (bus w, user w))) as [[] | exc0] eqn:Hr;
    [ discriminate | ].
  destruct (is_Exception exc0) eqn:Hexc0.
  - destruct (fst (printing h exc0 (snd (run h e (bus w, user w)))))
      as [[] | exc'] eqn:Hp; [ discriminate | ].
    simpl. intros Heq. inversion Heq; subst.
    split; [ right; eauto | reflexivity ].
  - simpl. intros Heq. inversion Heq; subst.
    split; [ left; auto | reflexivity ].
Qed.

Lemma dispatch_raise hs e w exc :
  fst (dispatch run printing hs e w) = Raised exc ->
  exists pre h post,
    hs = pre ++ h :: post /\
    fst (dispatch run printing pre e w) = Returned tt /\
    fst (attempt run printing h e (snd (dispatch run printing pre e w)))
    = Raised exc /\
    snd (dispatch run printing hs e w)
    = after_handler run printing h e (snd (dispatch run printing pre e w)).
Proof.
  revert w. induction hs as [| h hs IH]; intros w Hr; [ discriminate | ].
  rewrite dispatch_cons in Hr |- *.
  destruct (fst (attempt run printing h e w)) as [[] | exc0] eqn:Hatt.
  - destruct (IH _ Hr) as (pre & h' & post & -> & Hpre & Hraise & Hsnd).
    exists (h :: pre), h', post.
    rewrite (dispatch_cons run printing h pre), Hatt.
    split; [ reflexivity | auto ].
  - simpl in Hr. inversion Hr; subst. exists [], h, hs. simpl. auto.
Qed.

(** X11: what a publish raises comes from the call of a registered
    handler.  When it raises [exc], the handlers registered before some
    handler [h] had been dispatched, and either [h] raised [exc], which is
    not an [Exception], or [h] raised an [Exception] and [exc] is what
    printing its diagnostic raised; the call of [h] is the last thing the
    publish did: no diagnostic on the log for it and no call of a handler
    registered after it. *)
Theorem publish_raises_from_a_handler_call :
  forall e w exc,
    fst (publish type_of run printing e w) = Raised exc ->
    exists pre h post,
      handlers_of (type_of e) (bus w) = pre ++ h :: post /\
      fst (dispatch run printing pre e w) = Returned tt /\
      let w_h := snd (dispatch run printing pre e w) in
      ((fst (run h e (bus w_h, user w_h)) = Raised exc /\
        is_Exception exc = false) \/
       (exists exc0,
           fst (run h e (bus w_h, user w_h)) = Raised exc0 /\
           is_Exception exc0 = true /\
           fst (printing h exc0 (snd (run h e (bus w_h, user w_h))))
           = Raised exc)) /\
      log (snd (publish type_of run printing e w)) = log w_h ++ [Invoked h e].
Proof.
  intros e w exc. rewrite publish_dispatch. intros Hr.
  destruct (dispatch_raise _ e w exc Hr)
    as (pre & h & post & Hsplit & Hpre & Hatt & Hsnd).
  exists pre, h, post.
  split; [ exact Hsplit | split; [ exact Hpre | ] ].
  cbv zeta. rewrite Hsnd. now apply attempt_raise.
Qed.

End DispatchFurther.

(* ===================================================================== *)
(** * Further properties of the singleton                                 *)
(* ===================================================================== *)

Section SingletonFurther.
Context {EventType Handler : Type} `{Countable EventType}
        `{EqDecision Handler}.

Implicit Types (cls : ClassState EventType Handler).

(** X12: [instance()] always returns a bus, never [None]; a second call
    returns the same bus and changes nothing; a call constructs a bus only
    when [_instance] is [None], and then exactly one, with an empty
    registry. *)
Theorem instance_returns_the_same_bus :
  forall cls,
    exists b : nat,
      fst (instance cls) = Returned (Some b) /\
      instance (snd (instance cls)) = (Returned (Some b), snd (instance cls)) /\
      (_instance cls = Some b -> snd (instance cls) = cls) /\
      (_instance cls = None ->
       b = length (objects cls) /\
       objects (snd (instance cls)) = objects cls ++ [EventBus_init]).
Proof.
  intros cls. destruct (_instance cls) as [a |] eqn:Ha.
  - exists a. rewrite (instance_existing cls a Ha). simpl.
    rewrite (instance_existing cls a Ha).
    split; [ reflexivity | split; [ reflexivity | split ] ]; [ auto | discriminate ].
  - exists (length (objects cls)). rewrite (instance_first cls Ha). simpl.
    split; [ reflexivity | split; [ | split ] ].
    + now apply instance_existing.
    + discriminate.
    + auto.
Qed.

Lemma on_bus_objects_length {A} (a : nat)
    (m : M (EventBus EventType Handler) A) cls :
  length (objects (snd (on_bus a m cls))) = length (objects cls) /\
  _instance (snd (on_bus a m cls)) = _instance cls.
Proof.
  unfold on_bus. destruct (objects cls !! a) as [b |]; [ | auto ].
  destruct (m b) as [[x | exc] b']; simpl; now rewrite length_insert.
Qed.

Lemma after_call_invariant cls r (c : ClassCall EventType Handler) :
  at_most_one_per_reset cls r ->
  at_most_one_per_reset (after_call cls c) (r + resets [c]).
Proof.
  intros [Hwf Hlen]. destruct c as [| | a T h | a T h]; simpl.
  - split; [ now apply instance_wf | ].
    destruct (_instance cls) as [a |] eqn:Ha.
    + rewrite (instance_existing cls a Ha). simpl. rewrite Ha. lia.
    + rewrite (instance_first cls Ha). simpl. rewrite length_app. simpl. lia.
  - split; [ apply reset_wf | ]. simpl.
    destruct (_instance cls); lia.
  - split; [ now apply on_bus_wf | ].
    destruct (on_bus_objects_length a (subscribe T h) cls) as [-> ->]. lia.
  - split; [ now apply on_bus_wf | ].
    destruct (on_bus_objects_length a (unsubscribe T h) cls) as [-> ->]. lia.
Qed.

Lemma after_calls_invariant (calls : list (ClassCall EventType Handler)) cls r :
  at_most_one_per_reset cls r ->
  at_most_one_per_reset (after_calls calls cls) (r + resets calls).
Proof.
  revert cls r. induction calls as [| c calls IH]; intros cls r Hinv.
  - simpl. now rewrite Nat.add_0_r.
  - unfold after_calls. simpl foldl. fold (after_calls calls (after_call cls c)).
    apply after_call_invariant with (c := c) in Hinv.
    apply IH in Hinv.
    replace (r + resets (c :: calls)) with (r + resets [c] + resets calls);
      [ exact Hinv | ].
    destruct c; simpl; lia.
Qed.

(** X13: whatever calls of [instance], [reset], [subscribe] and
    [unsubscribe] an application makes, starting from the class as the
    class statement leaves it: [_instance] is [None] or the address of a
    bus that was constructed; at most one bus is constructed per reset,
    plus one; and as long as [reset] is not called there is one bus only,
    the first, and [instance()] returns it. *)
Theorem one_bus_between_resets :
  forall calls : list (ClassCall EventType Handler),
    let cls := after_calls calls ClassState_init in
    wf_class cls /\
    (forall a, _instance cls = Some a -> is_Some (objects cls !! a)) /\
    length (objects cls) <= S (resets calls) /\
    (resets calls = 0 ->
     length (objects cls) <= 1 /\
     fst (instance cls) = Returned (Some 0)).
Proof.
  intros calls cls.
  assert (Hinv : at_most_one_per_reset cls (0 + resets calls)).
  { apply after_calls_invariant. split; [ apply wf_class_init | simpl; lia ]. }
  destruct Hinv as [Hwf Hlen]. simpl in Hlen.
  split; [ exact Hwf | split; [ | split ] ].
  - intros a Ha. apply lookup_lt_is_Some. now apply Hwf.
  - destruct (_instance cls); lia.
  - intros Hno. rewrite Hno in Hlen.
    destruct (_instance cls) as [a |] eqn:Ha.
    + split; [ lia | ]. rewrite (instance_existing cls a Ha). simpl.
      apply Hwf in Ha. repeat f_equal. lia.
    + split; [ lia | ]. rewrite (instance_first cls Ha). simpl.
      repeat f_equal. lia.
Qed.

(** X14: the registry is shared through the singleton: a handler subscribed
    on the bus that [instance()] returned is registered, last for its event
    type, on the bus that the next [instance()] returns, which is the same
    bus. *)
Theorem subscription_is_seen_through_instance :
  forall cls T (h : Handler),
    wf_class cls ->
    exists (b : nat) (bus0 bus1 : EventBus EventType Handler),
      fst (instance cls) = Returned (Some b) /\
      objects (snd (instance cls)) !! b = Some bus0 /\
      let cls2 := snd (on_bus b (subscribe T h) (snd (instance cls))) in
      instance cls2 = (Returned (Some b), cls2) /\
      objects cls2 !! b = Some bus1 /\
      handlers_of T bus1 = handlers_of T bus0 ++ [h].
Proof.
  intros cls T h Hwf.
  assert (Hwf1 := instance_wf cls Hwf).
  assert (Hb : exists b, fst (instance cls) = Returned (Some b) /\
                         _instance (snd (instance cls)) = Some b).
  { destruct (_instance cls) as [a |] eqn:Ha.
    - exists a. rewrite (instance_existing cls a Ha). auto.
    - exists (length (objects cls)). rewrite (instance_first cls Ha). auto. }
  destruct Hb as (b & Hret & Hinst).
  set (cls1 := snd (instance cls)) in *.
  assert (Hlt : b < length (objects cls1)) by now apply Hwf1.
  destruct (lookup_lt_is_Some_2 _ _ Hlt) as [bus0 Hbus0].
  exists b, bus0, (snd (subscribe T h bus0)).
  split; [ exact Hret | split; [ exact Hbus0 | ] ].
  intros cls2.
  assert (Hcls2 : cls2 = mkClassState
                           (<[b := snd (subscribe T h bus0)]> (objects cls1))
                           (Some b)).
  { unfold cls2, on_bus. rewrite Hbus0, subscribe_spec. simpl.
    now rewrite Hinst. }
  split; [ | split ].
  - apply instance_existing. now rewrite Hcls2.
  - rewrite Hcls2. simpl. now apply list_lookup_insert_eq.
  - apply handlers_of_subscribe_eq.
Qed.

End SingletonFurther.

(* ===================================================================== *)
(** * Further properties of models.py                                     *)
(* ===================================================================== *)

Lemma ascii_lower_ascii (c : ascii) :
  is_ascii_char c = true ->
  code (ascii_lower c) = (if is_ascii_upper c then code c + 32 else code c) /\
  is_ascii_char (ascii_lower c) = true /\
  ascii_lower (ascii_lower c) = ascii_lower c /\
  is_ascii_upper (ascii_lower c) = false.
Proof.
  destruct c as [[] [] [] [] [] [] [] []]; vm_compute; intros Hc;
    first [ discriminate Hc | repeat split ].
Qed.

Lemma in_ascii_chars (c : ascii) :
  is_ascii_char c = true -> In c ascii_chars.
Proof.
  unfold is_ascii_char, code, ascii_chars. intros Hc.
  apply Nat.ltb_lt in Hc. rewrite <- (ascii_nat_embedding c).
  apply in_map. apply in_seq. lia.
Qed.

Lemma ascii_lower_eq_check :
  forallb (fun c1 =>
             forallb (fun c2 =>
                        Bool.eqb (Ascii.eqb (ascii_lower c1) (ascii_lower c2))
                                 (char_eq_ignore_case c1 c2))
                     ascii_chars)
          ascii_chars = true.
Proof. vm_compute. reflexivity. Qed.

(** Two ASCII characters have the same lowering exactly when they are equal
    up to case. *)
Lemma ascii_lower_eq_iff (c1 c2 : ascii) :
  is_ascii_char c1 = true -> is_ascii_char c2 = true ->
  (ascii_lower c1 = ascii_lower c2 <-> char_eq_ignore_case c1 c2 = true).
Proof.
  intros H1 H2.
  pose proof ascii_lower_eq_check as Hall.
  rewrite List.forallb_forall in Hall.
  specialize (Hall c1 (in_ascii_chars c1 H1)).
  rewrite List.forallb_forall in Hall.
  specialize (Hall c2 (in_ascii_chars c2 H2)).
  apply Bool.eqb_prop in Hall. rewrite <- Hall. symmetry. apply Ascii.eqb_eq.
Qed.

Lemma ascii_str_lower_eq_iff (s1 s2 : string) :
  str_is_ascii s1 = true -> str_is_ascii s2 = true ->
  (ascii_str_lower s1 = ascii_str_lower s2 <-> str_eq_ignore_case s1 s2 = true).
Proof.
  revert s2. induction s1 as [| c1 s1 IH]; intros [| c2 s2] H1 H2; simpl.
  - split; reflexivity.
  - split; discriminate.
  - split; discriminate.
  - cbn [str_is_ascii] in H1, H2.
    apply andb_true_iff in H1. destruct H1 as [Hc1 Hs1].
    apply andb_true_iff in H2. destruct H2 as [Hc2 Hs2].
    rewrite andb_true_iff, <- (IH s2 Hs1 Hs2),
      <- (ascii_lower_eq_iff c1 c2 Hc1 Hc2).
    split.
    + intros Heq. inversion Heq. auto.
    + intros [-> ->]. reflexivity.
Qed.

Lemma ascii_str_lower_spec (s : string) :
  str_is_ascii s = true ->
  String.length (ascii_str_lower s) = String.length s /\
  str_is_ascii (ascii_str_lower s) = true /\
  ascii_str_lower (ascii_str_lower s) = ascii_str_lower s /\
  has_ascii_upper (ascii_str_lower s) = false /\
  (forall i c, String.get i s = Some c ->
     exists c', String.get i (ascii_str_lower s) = Some c' /\
                code c' = if is_ascii_upper c then code c + 32 else code c).
Proof.
  induction s as [| c s IH]; intros Hs.
  - repeat split. intros i ch Hget. destruct i; discriminate.
  - cbn [str_is_ascii] in Hs. apply andb_true_iff in Hs. destruct Hs as [Hc Hs].
    destruct (IH Hs) as (Hlen & Hascii & Hidem & Hup & Hget).
    destruct (ascii_lower_ascii c Hc) as (Hcode & Hc1 & Hc2 & Hc3).
    cbn [ascii_str_lower str_is_ascii has_ascii_upper String.length].
    rewrite Hlen, Hc1, Hascii, Hidem, Hc2, Hc3, Hup.
    repeat split. intros i ch Hi. destruct i as [| i]; simpl in *.
    + inversion Hi; subst. exists (ascii_lower ch). auto.
    + now apply Hget.
Qed.

Section KeyProperties.
Variable unicode_lower : string -> string.

(** X15: for a ticker whose symbol is made of ASCII characters, [key] is
    that symbol with the letters [A] to [Z] lowered: it has the length of
    the symbol; at every position, the character of the symbol when that is
    none of [A] to [Z], and the character 32 codes further when it is; it
    contains none of the letters [A] to [Z], and lowering it again changes
    nothing.  The key depends on the symbol alone, and two tickers with
    ASCII symbols have the same key exactly when their symbols are equal up
    to the case of the letters, whatever their asset types and display
    names. *)
Theorem Tracker_key_is_lowered_symbol :
  forall (s : string) (a : AssetType) (d : string),
    str_is_ascii s = true ->
    let k := key unicode_lower (Tracker_init s a d) in
    String.length k = String.length s /\
    (forall i c, String.get i s = Some c ->
       exists c', String.get i k = Some c' /\
                  code c' = if is_ascii_upper c then code c + 32 else code c) /\
    has_ascii_upper k = false /\
    str_lower unicode_lower k = k /\
    (forall s' a' d',
        str_is_ascii s' = true ->
        (key unicode_lower (Tracker_init s' a' d') = k <->
         str_eq_ignore_case s' s = true)).
Proof.
  intros s a d Hs k.
  assert (Hsym : forall s0 a0 d0, symbol (Tracker_init s0 a0 d0) = s0).
  { intros s0 a0 d0. unfold Tracker_init, __post_init__. simpl.
    now destruct (str_bool d0). }
  assert (Hkey : forall s0 a0 d0,
             str_is_ascii s0 = true ->
             key unicode_lower (Tracker_init s0 a0 d0) = ascii_str_lower s0).
  { intros s0 a0 d0 Hs0. unfold key, str_lower. now rewrite Hsym, Hs0. }
  unfold k. rewrite (Hkey s a d Hs).
  destruct (ascii_str_lower_spec s Hs) as (Hlen & Hascii & Hidem & Hup & Hget).
  split; [ exact Hlen | split; [ exact Hget | split; [ exact Hup | split ] ] ].
  - unfold str_lower. now rewrite Hascii.
  - intros s' a' d' Hs'. rewrite (Hkey s' a' d' Hs').
    now apply ascii_str_lower_eq_iff.
Qed.

End KeyProperties.

(** The key of the ticker [BTC-usd], whatever the case tables are. *)
Example Tracker_key_example :
  forall unicode_lower,
    key unicode_lower (Tracker_init "BTC-usd" CRYPTO "") = "btc-usd" /\
    key unicode_lower (Tracker_init "btc-USD" STOCK "Bitcoin") = "btc-usd".
Proof. intros ul. split; reflexivity. Qed.

Lemma Tracker_key_is_lowered_symbol_witness :
  let s := "BTC-usd" in
  let k := key (fun s => s) (Tracker_init s CRYPTO "") in
  String.length k = String.length s /\
  (forall i c, String.get i s = Some c ->
     exists c', String.get i k = Some c' /\
                code c' = if is_ascii_upper c then code c + 32 else code c) /\
  has_ascii_upper k = false /\
  str_lower (fun s => s) k = k /\
  (forall s' a' d',
      str_is_ascii s' = true ->
      (key (fun s => s) (Tracker_init s' a' d') = k <->
       str_eq_ignore_case s' s = true)).
Proof.
  apply (Tracker_key_is_lowered_symbol (fun s => s) "BTC-usd" CRYPTO "").
  reflexivity.
Defined.

(** X16: two constructed tickers are equal (field by field, the equality
    [dataclass] generates) exactly when their symbols and asset types are
    equal and their display names are, after an empty one was replaced by
    the symbol; so a ticker constructed without display name equals the one
    constructed with the symbol as display name. *)
Theorem Tracker_equality :
  forall (s s' : string) (a a' : AssetType) (d d' : string),
    (Tracker_init s a d = Tracker_init s' a' d' <->
     s = s' /\ a = a' /\
     (if str_bool d then d else s) = (if str_bool d' then d' else s')) /\
    Tracker_init s a "" = Tracker_init s a s.
Proof.
  intros s s' a a' d d'.
  assert (Hinit : forall s0 a0 d0,
             Tracker_init s0 a0 d0
             = mkTracker s0 a0 (if str_bool d0 then d0 else s0)).
  { intros s0 a0 d0. unfold Tracker_init, __post_init__. simpl.
    now destruct (str_bool d0). }
  split.
  - rewrite !Hinit. split.
    + intros Heq. inversion Heq. auto.
    + intros (-> & -> & ->). reflexivity.
  - rewrite !Hinit. simpl. now destruct (str_bool s).
Qed.

(** X17: [is_positive] is monotone in [change_pct]: when a snapshot is
    positive, every snapshot whose [change_pct] is at least as large (in
    the order of the floats) is positive, and its direction symbol is the
    upward one. *)
Theorem is_positive_monotone :
  forall snap snap' : PriceSnapshot,
    is_positive snap = true ->
    SFleb (change_pct snap) (change_pct snap') = true ->
    is_positive snap' = true /\ direction_symbol snap' = "▲".
Proof.
  intros snap snap' Hpos Hle.
  assert (Hpos' : is_positive snap' = true).
  { unfold is_positive, float_ge_0 in *.
    destruct (change_pct snap) as [s1 | s1 | | s1 m1 e1];
      destruct (change_pct snap') as [s2 | s2 | | s2 m2 e2];
      try destruct s1; try destruct s2; simpl in *;
      try discriminate; reflexivity. }
  split; [ exact Hpos' | ]. unfold direction_symbol. now rewrite Hpos'.
Qed.

Lemma is_positive_monotone_witness :
  let small := mkPriceSnapshot 0%Z (S754_finite false 100 0) (Tracker_init "AAPL" STOCK "")
                               (S754_zero false) (S754_zero true) in
  let large := mkPriceSnapshot 1%Z (S754_finite false 101 0) (Tracker_init "AAPL" STOCK "")
                               (S754_finite false 1 0) (S754_finite false 1 (-3)) in
  is_positive large = true /\ direction_symbol large = "▲".
Proof.
  apply (is_positive_monotone
           (mkPriceSnapshot 0%Z (S754_finite false 100 0) (Tracker_init "AAPL" STOCK "")
                            (S754_zero false) (S754_zero true))).
  - reflexivity.
  - reflexivity.
Defined.

(* ===================================================================== *)
(** * Further properties of the top level of events.py                    *)
(* ===================================================================== *)

(** X18: lines 1 to 49 of [events.py] run to their end exactly when the
    import of line 7 succeeds: then the six event classes are accepted by
    [dataclass] (their defaulted [timestamp] comes last) and bound, with
    the two imported names and the two aliases; when the import raises,
    the same exception is raised and none of the six classes is bound. *)
Theorem events_prelude_defines_event_classes :
  (forall t p : PyObj,
      let res := events_prelude (Returned (t, p)) ∅ in
      fst res = Returned tt /\
      Forall (fun name => snd res !! name = Some (ObjClass name))
             event_class_names /\
      snd res !! "Ticker" = Some t /\
      snd res !! "PriceSnapshot" = Some p /\
      is_Some (snd res !! "EventHandler") /\
      snd res !! "EventType" = Some (ObjClass "type") /\
      snd res !! "EventBus" = None) /\
  (forall exc : PyExc,
      let res := events_prelude (Raised exc) ∅ in
      fst res = Raised exc /\
      Forall (fun name => snd res !! name = None) event_class_names).
Proof.
  split.
  - intros t p res.
    split; [ vm_compute; reflexivity | ].
    split; [ repeat constructor | ].
    split; [ vm_compute; reflexivity | ].
    split; [ vm_compute; reflexivity | ].
    split; [ eexists; vm_compute; reflexivity | ].
    split; vm_compute; reflexivity.
  - intros exc res. split; [ vm_compute; reflexivity | repeat constructor ].
Qed.

(** X19: with [models] being [models.py], loading [events.py] stops at
    line 7: the import raises what loading [models.py] raises (the
    [TypeError] of [PriceSnapshot] when [matplotlib] is there, the error of
    that import when it is not), whatever the library does in the lines
    below; no event class and no [EventBus] is bound, and the class body of
    line 52 is not reached. *)
Theorem events_import_stops_at_models :
  forall (env : PyEnv) (import_Ticker : Res PyObj),
    let load := events_toplevel env (import_models import_Ticker) ∅ in
    returns (import_models import_Ticker) = false /\
    import_module (events_toplevel env (import_models import_Ticker))
    = match import_Ticker with
      | Returned _ =>
          Raised (TypeError
                    "non-default argument 'price' follows default argument")
      | Raised exc => Raised exc
      end /\
    Forall (fun name => snd load !! name = None)
           ("EventBus" :: "PriceSnapshot" :: "Ticker" :: event_class_names) /\
    snd load !! "threading" = Some (ObjModule "threading").
Proof.
  intros env [t | exc] load.
  - split; [ vm_compute; reflexivity | ].
    split; [ vm_compute; reflexivity | ].
    split; [ repeat constructor | vm_compute; reflexivity ].
  - split; [ vm_compute; reflexivity | ].
    split; [ vm_compute; reflexivity | ].
    split; [ repeat constructor | vm_compute; reflexivity ].
Qed.

(* ===================================================================== *)
(** * The further properties at work in the application                   *)
(* ===================================================================== *)

Lemma unsubscribe_removes_first_registration_witness :
  let T := RefreshCompletedEvent_t in
  let b := bus (demo_subscribed T [PanelB; PanelA; PanelB; PanelA]) in
  exists l1 l2,
    handlers_of T b = l1 ++ PanelA :: l2 /\
    (PanelA ∉ l1) /\
    fst (unsubscribe T PanelA b) = Returned tt /\
    handlers_of T (snd (unsubscribe T PanelA b)) = l1 ++ l2 /\
    (forall T', T <> T' ->
       _subscribers (snd (unsubscribe T PanelA b)) !! T' = _subscribers b !! T').
Proof.
  apply (unsubscribe_removes_first_registration RefreshCompletedEvent_t PanelA).
  apply (bool_decide_unpack _). vm_compute. exact I.
Defined.

Lemma subscribe_then_unsubscribe_restores_handlers_witness :
  let T := RefreshCompletedEvent_t in
  let b := bus (demo_subscribed FetchFailedEvent_t [PanelA]) in
  let b1 := snd (subscribe T PanelB b) in
  let b2 := snd (unsubscribe T PanelB b1) in
  fst (unsubscribe T PanelB b1) = Returned tt /\
  (forall T', handlers_of T' b2 = handlers_of T' b) /\
  _subscribers b2 = <[T := handlers_of T b]> (_subscribers b) /\
  (is_Some (_subscribers b !! T) -> b2 = b) /\
  (_subscribers b !! T = None -> _subscribers b2 !! T = Some []).
Proof.
  apply (subscribe_then_unsubscribe_restores_handlers
           RefreshCompletedEvent_t PanelB).
  apply (bool_decide_unpack _). vm_compute. exact I.
Defined.

Lemma publish_without_handlers_does_nothing_witness :
  let w := snd (call_bus (unsubscribe TickerRemovedEvent_t OneShot)
                         (demo_subscribed TickerRemovedEvent_t [OneShot])) in
  demo_publish ticker_removed w = (Returned tt, w).
Proof.
  apply (publish_without_handlers_does_nothing type_of_event demo_run
           demo_printing).
  right. vm_compute. reflexivity.
Defined.

Lemma publish_prints_nothing_when_handlers_return_witness :
  let w := demo_subscribed RefreshCompletedEvent_t [PanelA; PanelB] in
  fst (demo_publish refresh_completed w) = Returned tt /\
  log (snd (demo_publish refresh_completed w))
  = log w ++ map (fun g => Invoked g refresh_completed)
                 (handlers_of (type_of_event refresh_completed) (bus w)).
Proof.
  apply (publish_prints_nothing_when_handlers_return type_of_event demo_run
           demo_printing).
  intros g [b n] Hg.
  destruct g; try reflexivity; exfalso;
    revert Hg; apply (bool_decide_unpack _); vm_compute; exact I.
Defined.

Lemma publish_applies_handler_effects_in_order_witness :
  let e := fetch_failed in
  let w := demo_subscribed FetchFailedEvent_t [PanelA; Faulty; PanelB] in
  let w' := snd (demo_publish e w) in
  (bus w', user w')
  = effects_in_order demo_run demo_printing e
                     (handlers_of (type_of_event e) (bus w))
                     (bus w, user w).
Proof.
  apply (publish_applies_handler_effects_in_order type_of_event demo_run
           demo_printing).
  intros g [b n] Hg exc Hexc.
  destruct g; simpl in Hexc; try discriminate Hexc;
    try (inversion Hexc; subst; split; reflexivity);
    not_subscribed Hg.
Defined.

Lemma subscription_is_seen_through_instance_witness :
  let cls : ClassState EventClass DemoHandler := ClassState_init in
  exists (b : nat) (bus0 bus1 : DemoBus),
    fst (instance cls) = Returned (Some b) /\
    objects (snd (instance cls)) !! b = Some bus0 /\
    let cls2 := snd (on_bus b (subscribe RefreshCompletedEvent_t PanelA)
                            (snd (instance cls))) in
    instance cls2 = (Returned (Some b), cls2) /\
    objects cls2 !! b = Some bus1 /\
    handlers_of RefreshCompletedEvent_t bus1
    = handlers_of RefreshCompletedEvent_t bus0 ++ [PanelA].
Proof.
  apply (subscription_is_seen_through_instance
           ClassState_init RefreshCompletedEvent_t PanelA).
  intros a Ha. discriminate Ha.
Defined.

Lemma publish_raises_from_a_handler_call_witness :
  let e := fetch_failed in
  let w := demo_subscribed FetchFailedEvent_t [PanelA; Garbled; PanelB] in
  exists pre h post,
    handlers_of (type_of_event e) (bus w) = pre ++ h :: post /\
    fst (dispatch demo_run demo_printing pre e w) = Returned tt /\
    let w_h := snd (dispatch demo_run demo_printing pre e w) in
    ((fst (demo_run h e (bus w_h, user w_h)) = Raised ValueError /\
      is_Exception ValueError = false) \/
     (exists exc0,
         fst (demo_run h e (bus w_h, user w_h)) = Raised exc0 /\
         is_Exception exc0 = true /\
         fst (demo_printing h exc0 (snd (demo_run h e (bus w_h, user w_h))))
         = Raised ValueError)) /\
    log (snd (demo_publish e w)) = log w_h ++ [Invoked h e].
Proof.
  apply (publish_raises_from_a_handler_call type_of_event demo_run
           demo_printing).
  vm_compute. reflexivity.
Defined.
